(** * Memory engine of the character chatbot: a shallow embedding

    This development embeds in Rocq the memory composition and retrieval
    engine of the chatbot: the vector memory store
    ([src/src/memory/rag_system.py], class [RAGMemorySystem]), the prompt
    composer ([src/src/character/prompt_builder.py], [PromptBuilder]) and
    the orchestrator ([src/src/bot/chatbot.py], [ChatBot]).

    Modelling choices.
    - Python objects that the methods mutate ([self.collection],
      [self.conversation_history]) live in one explicit state record
      [world]; methods are functions in a state and exception monad [M]:
      an exception keeps the mutations made before it was raised, as in
      Python.
    - [datetime.now()] is a counter [clock] that advances at every call.
      ISO timestamps compare like the instants they denote, so a timestamp
      is the natural number of its instant.
    - The ChromaDB collection is a list of records in insertion order.
      The embedding model only matters through the distance ChromaDB
      reports between the embedding of a query and that of a document,
      the section variable [distance]; numbers are rationals.
    - The outcome of the long-term writes ([embedding_model.encode] and
      [collection.add] inside [add_memory]) is an oracle in the state,
      [add_faults], consumed one entry per call ([true] = the call raises;
      an exhausted list means every later call succeeds).
    - The language-model client is a function from the composed context to
      either a text or a raised error message. *)

From stdpp Require Import base gmap strings list.
From Stdlib Require Import QArith Qround Lqa Sorted.

(** ** Concrete collaborators used by the examples at the end *)

(** A distance that puts every document at the same distance from every
    query: all relevances tie. *)
Definition distance_all_equal (q doc : string) : Q := 1 # 4.

(** A timestamp formatter that prints nothing (formatting is irrelevant to
    the properties below). *)
Definition format_timestamp_blank (t : nat) : string := "".

(** ** Data model *)

(** Metadata stored by [add_memory]: [{"user_id", "role", "timestamp"}]. *)
Record meta := mkMeta {
  meta_user_id : string;
  meta_role : string;
  meta_timestamp : nat
}.

(** The keys ["user_id"], ["role"] and ["timestamp"] of the optional
    [metadata] dict of [add_memory] ([None] where the dict lacks the key; a
    timestamp is an ISO timestamp, as the code's own).  Other keys are
    stored as well, but none of the functions embedded here reads them. *)
Record meta_update := mkMetaUpdate {
  upd_user_id : option string;
  upd_role : option string;
  upd_timestamp : option nat
}.

(** [if metadata: meta.update(metadata)]: an empty dict is falsy and, like
    a dict without these keys, changes nothing. *)
Definition update_meta (m : meta) (metadata : option meta_update) : meta :=
  match metadata with
  | None => m
  | Some d =>
      mkMeta (default (meta_user_id m) (upd_user_id d))
             (default (meta_role m) (upd_role d))
             (default (meta_timestamp m) (upd_timestamp d))
  end.

(** [doc_id = f"{user_id}_{role}_{timestamp}"].  Roles are ["user"] or
    ["assistant"] and ISO timestamps contain no underscore, so the f-string
    is injective on the triples the code produces; the identifier is kept
    as the triple. *)
Definition doc_id : Type := (string * string * nat)%type.

(** One entry of the ChromaDB collection: id, document and metadata (the
    embedding is represented through [distance]). *)
Record record := mkRecord {
  rec_id : doc_id;
  rec_document : string;
  rec_metadata : meta
}.

(** [class Memory]: content, metadata and relevance; [timestamp] and [role]
    are read from the metadata. *)
Record Memory := mkMemory {
  mem_content : string;
  mem_metadata : meta;
  mem_relevance : Q
}.

Definition mem_timestamp (m : Memory) : nat := meta_timestamp (mem_metadata m).
Definition mem_role (m : Memory) : string := meta_role (mem_metadata m).
Definition mem_user_id (m : Memory) : string := meta_user_id (mem_metadata m).

(** [class ConversationMessage]. *)
Record ConversationMessage := mkMessage {
  cm_role : string;
  cm_content : string;
  cm_timestamp : nat
}.

(** The whole mutable state: the collection of [RAGMemorySystem], the
    per-user [conversation_history] dict of [ChatBot], the configuration of
    [ChatBot], the clock and the write-fault oracle. *)
Record world := mkWorld {
  collection : list record;
  conversation_history : gmap string (list ConversationMessage);
  short_term_memory_size : Z;
  max_memory_results : nat;
  clock : nat;
  add_faults : list bool
}.

(** A fresh bot: empty collection and history, window [W], five results
    per search, clock at 0, long-term write outcomes [faults]. *)
Definition w_empty (W : Z) (faults : list bool) : world :=
  mkWorld [] ∅ W 5 0 faults.

Definition set_collection (w : world) (c : list record) : world :=
  mkWorld c (conversation_history w) (short_term_memory_size w)
    (max_memory_results w) (clock w) (add_faults w).
Definition set_history (w : world) (h : gmap string (list ConversationMessage)) : world :=
  mkWorld (collection w) h (short_term_memory_size w)
    (max_memory_results w) (clock w) (add_faults w).
Definition set_clock (w : world) (t : nat) : world :=
  mkWorld (collection w) (conversation_history w) (short_term_memory_size w)
    (max_memory_results w) t (add_faults w).
Definition set_add_faults (w : world) (f : list bool) : world :=
  mkWorld (collection w) (conversation_history w) (short_term_memory_size w)
    (max_memory_results w) (clock w) f.

(** ** State and exception monad *)

(** [WriteError]: [embedding_model.encode] or [collection.add] raised in
    [add_memory].  [QueryError]: ChromaDB's [collection.query] raised
    [TypeError] ("Number of requested results 0, cannot be negative, or
    zero") for a non-positive [n_results]. *)
Inductive exn :=
| WriteError
| QueryError.

Inductive result (A : Type) :=
| Ok (a : A)
| Raise (e : exn).
Arguments Ok {A} a.
Arguments Raise {A} e.

Definition M (A : Type) : Type := world -> result A * world.

Definition ret {A} (a : A) : M A := fun w => (Ok a, w).
Definition bind {A B} (m : M A) (f : A -> M B) : M B :=
  fun w => match m w with
           | (Ok a, w') => f a w'
           | (Raise e, w') => (Raise e, w')
           end.
Definition raise {A} (e : exn) : M A := fun w => (Raise e, w).
Definition gets {A} (f : world -> A) : M A := fun w => (Ok (f w), w).
Definition modify (f : world -> world) : M unit := fun w => (Ok tt, f w).

Notation "x <- m ;; k" := (bind m (fun x => k))
  (at level 100, m at next level, right associativity).
Notation "m ;;; k" := (bind m (fun _ => k))
  (at level 100, right associativity).

(** [datetime.now()]. *)
Definition now : M nat :=
  fun w => (Ok (clock w), set_clock w (S (clock w))).

(** Whether the next long-term write raises (consumes the oracle). *)
Definition next_write_fails : M bool :=
  fun w => match add_faults w with
           | [] => (Ok false, w)
           | b :: rest => (Ok b, set_add_faults w rest)
           end.

Section Engine.

(** Distance ChromaDB reports between the embedding of a query text and
    the stored embedding of a document text. *)
Variable distance : string -> string -> Q.

(** [PromptBuilder._format_timestamp]: ISO timestamp to
    ["%Y/%m/%d %H:%M"]. *)
Variable format_timestamp : nat -> string.

(** ** Vector memory store: [RAGMemorySystem] *)

(** The filter [where={"user_id": user_id}]. *)
Definition where_user (user_id : string) (r : record) : bool :=
  bool_decide (meta_user_id (rec_metadata r) = user_id).

(** [collection.get(where={"user_id": user_id})]. *)
Definition collection_get (col : list record) (user_id : string) : list record :=
  List.filter (where_user user_id) col.

(** [add_memory(user_id, message, role, metadata)]: take
    [datetime.now()], build the metadata and update it with [metadata],
    encode the message, add the record under the id built from the
    arguments; encoding or the write may raise, before the collection
    changes. *)
Definition add_memory (user_id message role : string) (metadata : option meta_update)
  : M doc_id :=
  timestamp <- now ;;
  let meta := update_meta (mkMeta user_id role timestamp) metadata in
  fails <- next_write_fails ;;
  if fails then raise WriteError
  else
    let doc := (user_id, role, timestamp) in
    modify (fun w => set_collection w
      (collection w ++ [mkRecord doc message meta])) ;;;
    ret doc.

(** ChromaDB's query: the [n_results] nearest records of the filtered
    collection by ascending distance.  The library does not specify the
    order of records at equal distance; it is modelled as a brute-force
    scan with a stable sort, which keeps insertion order among ties. *)
Fixpoint insert_by_distance (query : string) (r : record) (l : list record)
  : list record :=
  match l with
  | [] => [r]
  | r' :: l' =>
      if Qle_bool (distance query (rec_document r'))
                  (distance query (rec_document r))
      then r' :: insert_by_distance query r l'
      else r :: l
  end.

Definition sort_by_distance (query : string) (l : list record) : list record :=
  fold_left (fun acc r => insert_by_distance query r acc) l [].

(** [collection.query(query_embeddings=[...], n_results, where=...)]:
    documents, metadatas and distances of the first result list. *)
Definition collection_query (col : list record) (query user_id : string)
    (n_results : nat) : list (string * meta * Q) :=
  map (fun r => (rec_document r, rec_metadata r, distance query (rec_document r)))
      (firstn n_results (sort_by_distance query (collection_get col user_id))).

(** The loop of [search_memories]: [relevance = 1 - distance], kept when
    [relevance >= min_relevance]. *)
Fixpoint to_memories (min_relevance : Q) (rs : list (string * meta * Q))
  : list Memory :=
  match rs with
  | [] => []
  | (doc, m, dist) :: rest =>
      let relevance := (1 - dist)%Q in
      if Qle_bool min_relevance relevance
      then mkMemory doc m relevance :: to_memories min_relevance rest
      else to_memories min_relevance rest
  end.

(** [search_memories(query, user_id, n_results, min_relevance)]. *)
Definition search_memories (col : list record) (query user_id : string)
    (n_results : nat) (min_relevance : Q) : list Memory :=
  let results := collection_query col query user_id n_results in
  match results with
  | [] => []
  | _ => to_memories min_relevance results
  end.

(** [search_memories] as a call: [collection.query] raises for
    [n_results = 0] and [search_memories] does not catch it; for a positive
    [n_results] the call returns the list computed by [search_memories]. *)
Definition search_memories_call (col : list record) (query user_id : string)
    (n_results : nat) (min_relevance : Q) : result (list Memory) :=
  match n_results with
  | O => Raise QueryError
  | S _ => Ok (search_memories col query user_id n_results min_relevance)
  end.

(** [get_user_memory_count(user_id)]. *)
Definition get_user_memory_count (col : list record) (user_id : string) : nat :=
  length (collection_get col user_id).

(** [delete_user_memories(user_id)]: get the user's ids, delete them when
    there are any, return how many ids were found. *)
Definition delete_user_memories (user_id : string) : M nat :=
  ids <- gets (fun w => map rec_id (collection_get (collection w) user_id)) ;;
  (match ids with
   | [] => ret tt
   | _ => modify (fun w => set_collection w
            (List.filter (fun r => negb (bool_decide (rec_id r ∈ ids))) (collection w)))
   end) ;;;
  ret (length ids).

(** [memories.sort(key=lambda m: m.timestamp, reverse=True)]: Python's sort
    is stable, also with [reverse=True]; an element goes after every
    element with a timestamp at least its own. *)
Fixpoint insert_by_timestamp_desc (m : Memory) (l : list Memory) : list Memory :=
  match l with
  | [] => [m]
  | m' :: l' =>
      if Nat.leb (mem_timestamp m) (mem_timestamp m')
      then m' :: insert_by_timestamp_desc m l'
      else m :: l
  end.

Definition sort_by_timestamp_desc (l : list Memory) : list Memory :=
  fold_left (fun acc m => insert_by_timestamp_desc m acc) l [].

(** [get_recent_memories(user_id, n_results)]. *)
Definition get_recent_memories (col : list record) (user_id : string)
    (n_results : nat) : list Memory :=
  let results := collection_get col user_id in
  match results with
  | [] => []
  | _ =>
      let memories := map (fun r => mkMemory (rec_document r) (rec_metadata r) 1) results in
      firstn n_results (sort_by_timestamp_desc memories)
  end.

(** ** Context composer: [PromptBuilder.build_context_from_memories] *)

(** Python's [int(x)] on a number: truncation toward zero. *)
Definition py_int (x : Q) : Z :=
  if Qle_bool 0 x then Qfloor x else (- Qfloor (- x))%Z.

(** Python's [s * n] on a string: [n] copies, none when [n <= 0]. *)
Fixpoint str_repeat (k : nat) (s : string) : string :=
  match k with
  | O => ""
  | S k' => (s ++ str_repeat k' s)%string
  end.

Definition py_str_mul (s : string) (n : Z) : string := str_repeat (Z.to_nat n) s.

(** The number of stars of [relevance_indicator]: [int(memory.relevance * 3)]
    (a non-positive count prints no star). *)
Definition relevance_level (relevance : Q) : nat := Z.to_nat (py_int (relevance * 3)).

(** [relevance_indicator = "★" * int(memory.relevance * 3)]. *)
Definition relevance_indicator (relevance : Q) : string :=
  py_str_mul "★" (py_int (relevance * 3)).

Definition role_name (role : string) : string :=
  if bool_decide (role = "user") then "ユーザー" else "あなた".

(** Python's [str(i)] on a non-negative integer. *)
Fixpoint digits_of (fuel n : nat) (acc : string) : string :=
  match fuel with
  | O => acc
  | S fuel' =>
      let d := String (Ascii.ascii_of_nat (48 + n mod 10)) "" in
      if Nat.ltb n 10 then (d ++ acc)%string
      else digits_of fuel' (n / 10) (d ++ acc)%string
  end.

Definition str_of_nat (n : nat) : string := digits_of (S n) n "".

(** One line of the long-term section, numbered from [i]. *)
Fixpoint memory_lines (i : nat) (memories : list Memory) : list string :=
  match memories with
  | [] => []
  | memory :: rest =>
      (str_of_nat i ++ ". [" ++ format_timestamp (mem_timestamp memory) ++ "] "
        ++ relevance_indicator (mem_relevance memory) ++ " "
        ++ role_name (mem_role memory) ++ ": " ++ mem_content memory)%string
      :: memory_lines (S i) rest
  end.

Definition no_context_sentinel : string := "（初めての会話です）".
Definition separator : string := "---".
Definition current_message_prefix : string := "現在のユーザーのメッセージ: ".

(** The list [context_parts] built by [build_context_from_memories]. *)
Definition context_parts (memories : list Memory)
    (short_term_history : list ConversationMessage) (current_message : string)
  : list string :=
  (match memories with
   | [] => []
   | _ => "## 関連する過去の記憶:" :: memory_lines 1 memories ++ [""]
   end) ++
  (match short_term_history with
   | [] => []
   | _ => "## 現在の会話の流れ:"
            :: map (fun msg => role_name (cm_role msg) ++ ": " ++ cm_content msg)%string
                   short_term_history
            ++ [""]
   end) ++
  (match memories, short_term_history with
   | [], [] => [no_context_sentinel; ""]
   | _, _ => []
   end) ++
  [separator; (current_message_prefix ++ current_message)%string].

(** Python's [sep.join(parts)]. *)
Fixpoint py_join (sep : string) (parts : list string) : string :=
  match parts with
  | [] => ""
  | [p] => p
  | p :: rest => (p ++ sep ++ py_join sep rest)%string
  end.

Definition newline : string := String (Ascii.ascii_of_nat 10) "".

Definition build_context_from_memories (memories : list Memory)
    (short_term_history : list ConversationMessage) (current_message : string)
  : string :=
  py_join newline (context_parts memories short_term_history current_message).

(** ** Orchestrator: [ChatBot] *)

(** What the language-model client does with a request: return a text or
    raise an exception with a message. *)
Inductive llm_reply :=
| Completed (text : string)
| Failed (error : string).

Definition apology (error : string) : string :=
  ("申し訳ありません、応答の生成中にエラーが発生しました: " ++ error)%string.

(** [_generate_response(context)]: any exception of the client is caught
    and turned into an apology text. *)
Definition _generate_response (client : string -> llm_reply) (context : string)
  : M string :=
  match client context with
  | Completed text => ret text
  | Failed e => ret (apology e)
  end.

(** Python's [lst[start:]] for an integer [start]. *)
Definition py_slice_from {A} (start : Z) (l : list A) : list A :=
  let n := Z.of_nat (length l) in
  let s := if Z.ltb start 0 then Z.max 0 (start + n) else Z.min start n in
  drop (Z.to_nat s) l.

(** [_get_short_term_history(user_id)]:
    [conversation_history[user_id][-short_term_memory_size:]]. *)
Definition _get_short_term_history (w : world) (user_id : string)
  : list ConversationMessage :=
  match conversation_history w !! user_id with
  | None => []
  | Some h => py_slice_from (- short_term_memory_size w) h
  end.

(** [_save_to_memory(user_id, message, role)]: append to the short-term
    history, then write to the long-term store. *)
Definition _save_to_memory (user_id message role : string) : M unit :=
  timestamp <- now ;;
  modify (fun w =>
    let h := conversation_history w in
    let old := default [] (h !! user_id) in
    set_history w (<[user_id := old ++ [mkMessage role message timestamp]]> h)) ;;;
  _ <- add_memory user_id message role None ;;
  ret tt.

(** [chat(user_id, message)].  The search step is the value of
    [search_memories], i.e. the run of [chat] for a positive
    [max_memory_results] (5 by default); with [MAX_MEMORY_RESULTS=0] the
    query raises ([search_memories_call]) before any generation. *)
Definition chat (client : string -> llm_reply) (user_id message : string)
  : M string :=
  long_term_memories <- gets (fun w =>
    search_memories (collection w) message user_id (max_memory_results w) 0) ;;
  short_term_history <- gets (fun w => _get_short_term_history w user_id) ;;
  let context := build_context_from_memories long_term_memories
                   short_term_history message in
  response <- _generate_response client context ;;
  _save_to_memory user_id message "user" ;;;
  _save_to_memory user_id response "assistant" ;;;
  ret response.

(** [clear_short_term_memory(user_id)]. *)
Definition clear_short_term_memory (user_id : string) : M unit :=
  modify (fun w => set_history w (delete user_id (conversation_history w))).

(** Values of the result dicts. *)
Inductive pyval :=
| VStr (s : string)
| VInt (n : Z).

(** [get_user_stats(user_id)]. *)
Definition get_user_stats (w : world) (user_id : string) : list (string * pyval) :=
  [("user_id", VStr user_id);
   ("long_term_memories", VInt (Z.of_nat (get_user_memory_count (collection w) user_id)));
   ("short_term_messages",
     VInt (Z.of_nat (length (default [] (conversation_history w !! user_id)))))].

(** [delete_user_data(user_id)]. *)
Definition delete_user_data (user_id : string) : M (list (string * pyval)) :=
  modify (fun w => set_history w (delete user_id (conversation_history w))) ;;;
  deleted_count <- delete_user_memories user_id ;;
  ret [("user_id", VStr user_id);
       ("deleted_memories", VInt (Z.of_nat deleted_count));
       ("status", VStr "completed")].

(** [get_recent_conversation(user_id, n)]: role, content and timestamp of
    the [n] most recent memories. *)
Definition get_recent_conversation (w : world) (user_id : string) (n : nat)
  : list (string * string * nat) :=
  map (fun memory => (mem_role memory, mem_content memory, mem_timestamp memory))
      (get_recent_memories (collection w) user_id n).

(** The loop of [get_statistics] over all metadatas:
    [user_counts[user_id] = user_counts.get(user_id, 0) + 1]. *)
Definition count_users (metas : list meta) : gmap string nat :=
  fold_left (fun user_counts m =>
      <[meta_user_id m := (default 0 (user_counts !! meta_user_id m) + 1)%nat]> user_counts)
    metas ∅.

(** The dict returned by [get_statistics]. *)
Record statistics := mkStatistics {
  total_memories : nat;
  unique_users : nat;
  user_counts : gmap string nat
}.

(** [get_statistics()]: [collection.count()], then the per-user counts of
    all metadatas. *)
Definition get_statistics (col : list record) : statistics :=
  let user_counts := count_users (map rec_metadata col) in
  mkStatistics (length col) (size user_counts) user_counts.

(** The sum of the per-user counts of a [user_counts] dict. *)
Definition sum_counts (m : gmap string nat) : nat :=
  map_fold (fun _ v acc => (v + acc)%nat) 0%nat m.

(** Python's [lst[:stop]] for an integer [stop]. *)
Definition py_slice_to {A} (stop : Z) (l : list A) : list A :=
  let n := Z.of_nat (length l) in
  let e := if Z.ltb stop 0 then Z.max 0 (stop + n) else Z.min stop n in
  take (Z.to_nat e) l.

Definition summary_line (k : nat) : string :=
  ("（これまでに" ++ str_of_nat k ++ "件のメッセージをやり取りしました）")%string.

(** [PromptBuilder.extract_conversation_summary(short_term_history,
    max_messages)]. *)
Definition extract_conversation_summary (short_term_history : list ConversationMessage)
    (max_messages : Z) : string :=
  if Z.leb (Z.of_nat (length short_term_history)) max_messages then ""
  else
    let old_messages := py_slice_to (- max_messages) short_term_history in
    py_join newline [summary_line (length old_messages)].

(** ** Properties used in the statements *)

(** A relation between the state before and after every run of [m]. *)
Definition preserves {A} (P : world -> world -> Prop) (m : M A) : Prop :=
  forall w, P w (snd (m w)).


(** The first character of a string, if any. *)
Definition first_char (s : string) : option Ascii.ascii :=
  match s with
  | EmptyString => None
  | String c _ => Some c
  end.

(** Every stored timestamp is older than the clock, as [now] hands them out. *)
Definition timestamps_before_clock (w : world) : Prop :=
  forall r, In r (collection w) -> (meta_timestamp (rec_metadata r) < clock w)%nat.

(** The state of user [other] (short-term history and long-term records)
    is the same in [w] and [w']. *)
Definition same_for_user (other : string) (w w' : world) : Prop :=
  conversation_history w' !! other = conversation_history w !! other /\
  collection_get (collection w') other = collection_get (collection w) other.

(** Every record's id carries the owner in its metadata, as [add_memory]
    builds it. *)
Definition wf_collection (col : list record) : Prop :=
  forall r, In r col -> (rec_id r).1.1 = meta_user_id (rec_metadata r).

(** Ties in relevance listed newest first: of two neighbours with equal
    relevance, the first has the later timestamp. *)
Definition ties_newest_first (l : list Memory) : Prop :=
  forall i a b, l !! i = Some a -> l !! S i = Some b ->
    (mem_relevance a == mem_relevance b)%Q -> (mem_timestamp b <= mem_timestamp a)%nat.

(** A caller that invokes [_save_to_memory] once per turn and goes on even
    when the long-term write of a turn raises. *)
Definition save_turns (user_id : string) (turns : list (string * string)) (w : world)
  : world :=
  fold_left (fun w t => snd (_save_to_memory user_id t.1 t.2 w)) turns w.

(** The [short_term_messages] entry of [get_user_stats]. *)
Definition short_term_messages (w : world) (user_id : string) : option pyval :=
  match get_user_stats w user_id with
  | [_; _; (_, v)] => Some v
  | _ => None
  end.

(** ** Lemmas on the store *)

Lemma insert_by_distance_perm query r l :
  Permutation (insert_by_distance query r l) (r :: l).
Proof.
  induction l as [|r' l IH]; simpl; [done|].
  destruct (Qle_bool _ _); [|done].
  rewrite IH. apply perm_swap.
Qed.

Lemma sort_by_distance_perm query l :
  Permutation (sort_by_distance query l) l.
Proof.
  unfold sort_by_distance.
  enough (forall acc, Permutation
    (fold_left (fun acc r => insert_by_distance query r acc) l acc) (l ++ acc))
    as H by (rewrite H, app_nil_r; done).
  induction l as [|r l IH]; intros acc; simpl; [done|].
  rewrite IH, insert_by_distance_perm. symmetry. apply Permutation_middle.
Qed.

Definition closer (query : string) (a b : record) : Prop :=
  (distance query (rec_document a) <= distance query (rec_document b))%Q.

Lemma insert_by_distance_sorted query r l :
  StronglySorted (closer query) l ->
  StronglySorted (closer query) (insert_by_distance query r l).
Proof.
  induction l as [|r' l IH]; simpl; intros Hs.
  - repeat constructor.
  - inversion Hs as [|? ? Hs' Hf]; subst.
    destruct (Qle_bool _ _) eqn:E.
    + apply Qle_bool_iff in E. constructor; [by apply IH|].
      apply List.Forall_forall. intros x Hx.
      apply (Permutation_in _ (insert_by_distance_perm _ _ _)) in Hx.
      destruct Hx as [<-|Hx]; [done|]. by eapply List.Forall_forall in Hf.
    + assert (Hlt : (distance query (rec_document r) < distance query (rec_document r'))%Q).
      { apply Qnot_le_lt. intros Hle. apply Qle_bool_iff in Hle. congruence. }
      constructor; [done|]. constructor; [unfold closer; lra|].
      apply List.Forall_forall. intros x Hx. eapply List.Forall_forall in Hf; [|done].
      unfold closer in *. lra.
Qed.

Lemma sort_by_distance_sorted query l :
  StronglySorted (closer query) (sort_by_distance query l).
Proof.
  unfold sort_by_distance.
  enough (forall acc, StronglySorted (closer query) acc ->
    StronglySorted (closer query)
      (fold_left (fun acc r => insert_by_distance query r acc) l acc))
    as H by (apply H; constructor).
  induction l as [|r l IH]; intros acc Hacc; simpl; [done|].
  apply IH. by apply insert_by_distance_sorted.
Qed.

Lemma StronglySorted_firstn {A} (R : A -> A -> Prop) n l :
  StronglySorted R l -> StronglySorted R (firstn n l).
Proof.
  revert l. induction n as [|n IH]; intros [|x l] Hs; simpl; [constructor..|].
  inversion Hs; subst. constructor; [by apply IH|].
  apply List.Forall_forall. intros y Hy. eapply List.Forall_forall; [done|].
  rewrite <- (firstn_skipn n l). apply in_app_iff. by left.
Qed.

Lemma StronglySorted_map {A B} (R : A -> A -> Prop) (R' : B -> B -> Prop)
    (f : A -> B) l :
  (forall a b, R a b -> R' (f a) (f b)) ->
  StronglySorted R l -> StronglySorted R' (map f l).
Proof.
  intros HR. induction l as [|x l IH]; intros Hs; simpl; [constructor|].
  inversion Hs; subst. constructor; [by apply IH|].
  apply Forall_map. eapply Forall_impl; [done|]. auto.
Qed.

Lemma In_firstn {A} n (l : list A) x : In x (firstn n l) -> In x l.
Proof.
  intros H. rewrite <- (firstn_skipn n l). apply in_app_iff. by left.
Qed.

Lemma collection_get_In col user_id r :
  In r (collection_get col user_id) <->
  In r col /\ meta_user_id (rec_metadata r) = user_id.
Proof.
  unfold collection_get, where_user. rewrite filter_In.
  by rewrite bool_decide_eq_true.
Qed.

Lemma collection_query_In col query user_id n doc m d :
  In (doc, m, d) (collection_query col query user_id n) ->
  exists r, In r (collection_get col user_id) /\ doc = rec_document r /\
            m = rec_metadata r /\ d = distance query (rec_document r).
Proof.
  unfold collection_query. intros H. apply in_map_iff in H as (r & Hr & Hin).
  injection Hr as <- <- <-. exists r. split; [|done].
  apply In_firstn in Hin.
  by apply (Permutation_in _ (sort_by_distance_perm _ _)) in Hin.
Qed.

Lemma to_memories_In min_relevance rs mem :
  In mem (to_memories min_relevance rs) ->
  exists d, In (mem_content mem, mem_metadata mem, d) rs /\
            mem_relevance mem = (1 - d)%Q /\
            (min_relevance <= mem_relevance mem)%Q.
Proof.
  induction rs as [|[[doc m] dist] rs IH]; simpl; [done|].
  destruct (Qle_bool _ _) eqn:E.
  - intros [<-|H].
    + exists dist. simpl. apply Qle_bool_iff in E. auto.
    + destruct (IH H) as (d & ? & ? & ?). eauto.
  - intros H. destruct (IH H) as (d & ? & ? & ?). eauto.
Qed.

Lemma to_memories_length min_relevance rs :
  (length (to_memories min_relevance rs) <= length rs)%nat.
Proof.
  induction rs as [|[[doc m] dist] rs IH]; simpl; [lia|].
  destruct (Qle_bool _ _); simpl; lia.
Qed.

Lemma search_memories_to_memories col query user_id n min_relevance :
  search_memories col query user_id n min_relevance =
  to_memories min_relevance (collection_query col query user_id n).
Proof. unfold search_memories. by destruct (collection_query _ _ _ _). Qed.

Lemma search_memories_In col query user_id n min_relevance mem :
  In mem (search_memories col query user_id n min_relevance) ->
  exists r, In r (collection_get col user_id) /\
    mem_content mem = rec_document r /\ mem_metadata mem = rec_metadata r /\
    mem_relevance mem = (1 - distance query (rec_document r))%Q /\
    (min_relevance <= mem_relevance mem)%Q.
Proof.
  rewrite search_memories_to_memories. intros H.
  apply to_memories_In in H as (d & Hin & Hrel & Hmin).
  apply collection_query_In in Hin as (r & Hr & Hdoc & Hm & Hd).
  exists r. subst. auto.
Qed.

Lemma to_memories_sorted min_relevance rs :
  StronglySorted (fun x y : string * meta * Q => (x.2 <= y.2)%Q) rs ->
  StronglySorted (fun a b => (mem_relevance b <= mem_relevance a)%Q)
    (to_memories min_relevance rs).
Proof.
  induction rs as [|[[doc m] dist] rs IH]; simpl; intros Hs; [constructor|].
  inversion Hs as [|? ? Hs' Hf]; subst.
  destruct (Qle_bool _ _); [|by apply IH].
  constructor; [by apply IH|]. apply List.Forall_forall. intros mem Hmem.
  apply to_memories_In in Hmem as (d & Hin & Hrel & _).
  eapply List.Forall_forall in Hf; [|done]. simpl in *. rewrite Hrel. lra.
Qed.

Lemma search_memories_sorted col query user_id n min_relevance :
  StronglySorted (fun a b => (mem_relevance b <= mem_relevance a)%Q)
    (search_memories col query user_id n min_relevance).
Proof.
  rewrite search_memories_to_memories. apply to_memories_sorted.
  unfold collection_query. eapply StronglySorted_map; [|].
  - intros a b H. exact H.
  - apply StronglySorted_firstn, sort_by_distance_sorted.
Qed.

Lemma insert_by_timestamp_desc_perm m l :
  Permutation (insert_by_timestamp_desc m l) (m :: l).
Proof.
  induction l as [|m' l IH]; simpl; [done|].
  destruct (Nat.leb _ _); [|done].
  rewrite IH. apply perm_swap.
Qed.

Lemma sort_by_timestamp_desc_perm l :
  Permutation (sort_by_timestamp_desc l) l.
Proof.
  unfold sort_by_timestamp_desc.
  enough (forall acc, Permutation
    (fold_left (fun acc m => insert_by_timestamp_desc m acc) l acc) (l ++ acc))
    as H by (rewrite H, app_nil_r; done).
  induction l as [|m l IH]; intros acc; simpl; [done|].
  rewrite IH, insert_by_timestamp_desc_perm. symmetry. apply Permutation_middle.
Qed.

Lemma get_recent_memories_In col user_id n mem :
  In mem (get_recent_memories col user_id n) ->
  exists r, In r (collection_get col user_id) /\ mem_metadata mem = rec_metadata r.
Proof.
  unfold get_recent_memories. destruct (collection_get col user_id) as [|r0 rs] eqn:E;
    [done|]. rewrite <- E. intros H. apply In_firstn in H.
  apply (Permutation_in _ (sort_by_timestamp_desc_perm _)) in H.
  apply in_map_iff in H as (r & <- & Hr). eauto.
Qed.

Lemma length_filter_partition {A} (p : A -> bool) (l : list A) :
  length l = (length (List.filter p l) + length (List.filter (fun x => negb (p x)) l))%nat.
Proof. induction l as [|x l IH]; simpl; [done|]. destruct (p x); simpl; lia. Qed.

Lemma collection_get_nil_search col query user_id n min_relevance :
  collection_get col user_id = [] ->
  search_memories col query user_id n min_relevance = [].
Proof.
  intros E. unfold search_memories, collection_query. rewrite E. cbn.
  by rewrite firstn_nil.
Qed.

(** [add_memory] without metadata (as [chat] calls it) keeps every
    record's id and metadata owner in step. *)
Lemma add_memory_wf user_id message role w :
  wf_collection (collection w) ->
  wf_collection (collection (snd (add_memory user_id message role None w))).
Proof.
  intros Hwf. unfold add_memory, bind, now, next_write_fails, modify, ret, raise.
  simpl. destruct (add_faults w) as [|[|] rest]; simpl; try done;
    intros r Hr; apply in_app_iff in Hr as [Hr|[<-|[]]]; auto.
Qed.

(** ** Claims *)

(** C2: for users [u1 <> u2], every memory returned by [search_memories]
    and by [get_recent_memories] for [u1] belongs to [u1], never to [u2],
    whatever the distances of [u2]'s records. *)
Theorem search_and_recent_isolate_users (col : list record) (query u1 u2 : string)
    (n_results n_recent : nat) (min_relevance : Q) (Hne : u1 <> u2) :
  (forall mem, In mem (search_memories col query u1 n_results min_relevance) ->
     mem_user_id mem = u1 /\ mem_user_id mem <> u2) /\
  (forall mem, In mem (get_recent_memories col u1 n_recent) ->
     mem_user_id mem = u1 /\ mem_user_id mem <> u2).
Proof.
  split; intros mem Hin.
  - apply search_memories_In in Hin as (r & Hr & _ & Hm & _).
    apply collection_get_In in Hr as [_ Hu]. unfold mem_user_id. rewrite Hm, Hu.
    auto.
  - apply get_recent_memories_In in Hin as (r & Hr & Hm).
    apply collection_get_In in Hr as [_ Hu]. unfold mem_user_id. rewrite Hm, Hu.
    auto.
Qed.

(** C4 (as amended): [search_memories] returns the user's memories by
    non-increasing relevance, at most [n_results] of them, none below
    [min_relevance]; it returns the empty list when the user has no record
    or when no record of the user clears the threshold.  The order among
    equal relevances is the one ChromaDB returns; the code adds no
    tie-break. *)
Theorem search_memories_contract (col : list record) (query user_id : string)
    (n_results : nat) (min_relevance : Q) :
  let res := search_memories col query user_id n_results min_relevance in
  StronglySorted (fun a b => (mem_relevance b <= mem_relevance a)%Q) res /\
  (length res <= n_results)%nat /\
  Forall (fun mem => (min_relevance <= mem_relevance mem)%Q) res /\
  Forall (fun mem => mem_user_id mem = user_id) res /\
  (collection_get col user_id = [] -> res = []) /\
  ((forall r, In r (collection_get col user_id) ->
      (1 - distance query (rec_document r) < min_relevance)%Q) -> res = []).
Proof.
  simpl. split; [apply search_memories_sorted|]. split.
  { rewrite search_memories_to_memories. etransitivity; [apply to_memories_length|].
    unfold collection_query. rewrite length_map, length_firstn. lia. }
  split.
  { apply List.Forall_forall. intros mem Hin.
    by apply search_memories_In in Hin as (r & _ & _ & _ & _ & H). }
  split.
  { apply List.Forall_forall. intros mem Hin.
    apply search_memories_In in Hin as (r & Hr & _ & Hm & _).
    apply collection_get_In in Hr as [_ Hu]. unfold mem_user_id. by rewrite Hm. }
  split; [apply collection_get_nil_search|].
  intros Hbelow.
  destruct (search_memories col query user_id n_results min_relevance)
    as [|mem rest] eqn:E; [done|].
  assert (Hin : In mem (search_memories col query user_id n_results min_relevance))
    by (rewrite E; left; done).
  apply search_memories_In in Hin as (r & Hr & _ & _ & Hrel & Hmin).
  specialize (Hbelow r Hr). rewrite Hrel in Hmin. lra.
Qed.

Lemma delete_user_memories_spec (w : world) (user_id query : string)
    (n_results : nat) (min_relevance : Q) (Hwf : wf_collection (collection w)) :
  let w' := snd (delete_user_memories user_id w) in
  fst (delete_user_memories user_id w) =
    Ok (length (collection w) - length (collection w'))%nat /\
  get_user_memory_count (collection w') user_id = 0%nat /\
  search_memories (collection w') query user_id n_results min_relevance = [].
Proof.
  unfold delete_user_memories, bind, gets, modify, ret. simpl.
  destruct (map rec_id (collection_get (collection w) user_id)) as [|i is] eqn:Eids.
  - apply map_eq_nil in Eids. simpl. unfold get_user_memory_count.
    rewrite Eids. split; [f_equal; lia|]. split; [done|].
    by apply collection_get_nil_search.
  - simpl. set (ids := i :: is) in *.
    assert (Hf : List.filter (fun r => negb (bool_decide (rec_id r ∈ ids))) (collection w)
               = List.filter (fun r => negb (where_user user_id r)) (collection w)).
    { apply filter_ext_in. intros r Hr. f_equal.
      apply bool_decide_ext.
      rewrite list_elem_of_In. rewrite <- Eids. split.
      - intros Hi. apply in_map_iff in Hi as (r' & Hid & Hr').
        pose proof Hr' as Hr''. apply collection_get_In in Hr'' as [Hin Hu].
        rewrite <- (Hwf r Hr), <- Hid, (Hwf r' Hin). done.
      - intros Hu. apply in_map_iff. exists r. split; [done|].
        by apply collection_get_In. }
    assert (Hnil : collection_get
              (List.filter (fun r => negb (where_user user_id r)) (collection w)) user_id = []).
    { destruct (collection_get
        (List.filter (fun r => negb (where_user user_id r)) (collection w)) user_id)
        as [|r rs] eqn:E; [done|].
      assert (Hr : In r (collection_get
                (List.filter (fun r => negb (where_user user_id r)) (collection w)) user_id))
        by (rewrite E; left; done).
      apply collection_get_In in Hr as [Hr Hu]. apply filter_In in Hr as [_ Hneg].
      unfold where_user in Hneg. rewrite bool_decide_eq_true_2 in Hneg; done. }
    rewrite Hf. split; [|split].
    + f_equal. change (S (length is)) with (length ids). rewrite <- Eids, length_map.
      rewrite (length_filter_partition (where_user user_id) (collection w)).
      unfold collection_get. lia.
    + unfold get_user_memory_count. by rewrite Hnil.
    + by apply collection_get_nil_search.
Qed.

Lemma delete_user_memories_history user_id w :
  conversation_history (snd (delete_user_memories user_id w)) = conversation_history w.
Proof.
  unfold delete_user_memories, bind, gets, modify, ret. simpl.
  by destruct (map rec_id _).
Qed.

Lemma delete_user_memories_size user_id w :
  short_term_memory_size (snd (delete_user_memories user_id w)) = short_term_memory_size w.
Proof.
  unfold delete_user_memories, bind, gets, modify, ret. simpl.
  by destruct (map rec_id _).
Qed.

(** [_save_to_memory] appends the turn to the user's short-term history,
    whether or not the long-term write raises. *)
Lemma save_to_memory_history user_id message role w :
  conversation_history (snd (_save_to_memory user_id message role w)) =
  <[user_id := default [] (conversation_history w !! user_id)
                 ++ [mkMessage role message (clock w)]]> (conversation_history w).
Proof.
  unfold _save_to_memory, add_memory, bind, now, next_write_fails, modify, ret, raise.
  simpl. by destruct (add_faults w) as [|[|] rest].
Qed.

Lemma save_to_memory_size user_id message role w :
  short_term_memory_size (snd (_save_to_memory user_id message role w)) =
  short_term_memory_size w.
Proof.
  unfold _save_to_memory, add_memory, bind, now, next_write_fails, modify, ret, raise.
  simpl. by destruct (add_faults w) as [|[|] rest].
Qed.

Lemma save_turns_count user_id turns w :
  length (default [] (conversation_history (save_turns user_id turns w) !! user_id)) =
  (length (default [] (conversation_history w !! user_id)) + length turns)%nat /\
  short_term_memory_size (save_turns user_id turns w) = short_term_memory_size w.
Proof.
  unfold save_turns. revert w.
  induction turns as [|[m r] turns IH]; intros w; simpl; [split; [lia|done]|].
  destruct (IH (snd (_save_to_memory user_id m r w))) as [Hlen Hsize].
  split.
  - rewrite Hlen, save_to_memory_history, lookup_insert_eq. simpl.
    rewrite length_app. simpl. lia.
  - by rewrite Hsize, save_to_memory_size.
Qed.

Lemma str_append_assoc (a b c : string) :
  ((a ++ b) ++ c)%string = (a ++ (b ++ c))%string.
Proof.
  induction a as [|x a IH]; [reflexivity|].
  change (String x ((a ++ b) ++ c) = String x (a ++ (b ++ c)))%string.
  by rewrite IH.
Qed.

Lemma py_join_app sep (pre rest : list string) :
  pre <> [] -> rest <> [] ->
  py_join sep (pre ++ rest) = (py_join sep pre ++ sep ++ py_join sep rest)%string.
Proof.
  intros Hpre Hrest. induction pre as [|p pre IH]; [done|].
  destruct pre as [|p' pre'].
  - simpl. by destruct rest.
  - assert (E1 : py_join sep ((p :: p' :: pre') ++ rest)
              = (p ++ sep ++ py_join sep ((p' :: pre') ++ rest))%string) by reflexivity.
    assert (E2 : py_join sep (p :: p' :: pre')
              = (p ++ sep ++ py_join sep (p' :: pre'))%string) by reflexivity.
    rewrite E1, E2, IH by done. by rewrite !str_append_assoc.
Qed.

Lemma context_parts_shape memories short_term_history current_message :
  exists pre, pre <> [] /\
    context_parts memories short_term_history current_message =
    pre ++ [separator; (current_message_prefix ++ current_message)%string].
Proof.
  unfold context_parts.
  eexists. split; [|rewrite !app_assoc; reflexivity].
  destruct memories, short_term_history; simpl; discriminate.
Qed.

(** C6 (as amended): on a collection built the way [chat] builds it,
    [delete_user_memories] returns the number of records it removed, and
    right after it [get_user_memory_count] is 0 and a call of
    [search_memories] for that user with a positive [n_results] returns the
    empty list (with [n_results = 0] the query raises). *)
Theorem delete_then_count_zero_and_search_empty (w : world) (user_id query : string)
    (n_results : nat) (min_relevance : Q) (Hwf : wf_collection (collection w))
    (Hpos : (0 < n_results)%nat) :
  let w' := snd (delete_user_memories user_id w) in
  fst (delete_user_memories user_id w) =
    Ok (length (collection w) - length (collection w'))%nat /\
  get_user_memory_count (collection w') user_id = 0%nat /\
  search_memories_call (collection w') query user_id n_results min_relevance = Ok [].
Proof.
  destruct n_results as [|n]; [lia|].
  destruct (delete_user_memories_spec w user_id query (S n) min_relevance Hwf)
    as (H1 & H2 & H3).
  split; [exact H1|]. split; [exact H2|].
  unfold search_memories_call. by rewrite H3.
Qed.

(** C7: with no memory and no short-term history the composed parts hold
    the "no prior context" sentinel line exactly once, and in every case the
    composed text ends with a newline, the separator ["---"], a newline and
    the labelled current message, so it ends with the message text. *)
Theorem compose_sentinel_and_final_message (memories : list Memory)
    (short_term_history : list ConversationMessage) (current_message : string) :
  length (List.filter (fun p => bool_decide (p = no_context_sentinel))
            (context_parts [] [] current_message)) = 1%nat /\
  exists pre,
    build_context_from_memories memories short_term_history current_message =
    (pre ++ newline ++ separator ++ newline ++ current_message_prefix
         ++ current_message)%string.
Proof.
  split.
  - unfold context_parts. simpl.
    repeat case_bool_decide; simpl; try discriminate; done.
  - destruct (context_parts_shape memories short_term_history current_message)
      as (pre & Hpre & E).
    exists (py_join newline pre). unfold build_context_from_memories.
    rewrite E, py_join_app by done. reflexivity.
Qed.

(** C8: the number of stars printed for a relevance never decreases when the
    relevance grows within [0, 1]; the indicator is that many stars. *)
Theorem relevance_level_monotone (r1 r2 : Q)
    (H0 : (0 <= r2)%Q) (H1 : (r1 <= 1)%Q) (Hlt : (r2 < r1)%Q) :
  (relevance_level r2 <= relevance_level r1)%nat /\
  relevance_indicator r1 = str_repeat (relevance_level r1) "★" /\
  relevance_indicator r2 = str_repeat (relevance_level r2) "★".
Proof.
  split; [|split; reflexivity].
  unfold relevance_level, py_int.
  assert (E1 : Qle_bool 0 (r1 * 3) = true) by (apply Qle_bool_iff; lra).
  assert (E2 : Qle_bool 0 (r2 * 3) = true) by (apply Qle_bool_iff; lra).
  rewrite E1, E2.
  assert (Hf : (Qfloor (r2 * 3) <= Qfloor (r1 * 3))%Z) by (apply Qfloor_resp_le; lra).
  lia.
Qed.

Lemma delete_user_data_eq user_id w :
  delete_user_data user_id w =
  match delete_user_memories user_id
          (set_history w (delete user_id (conversation_history w))) with
  | (Ok n, w') =>
      (Ok [("user_id", VStr user_id);
           ("deleted_memories", VInt (Z.of_nat n));
           ("status", VStr "completed")], w')
  | (Raise ex, w') => (Raise ex, w')
  end.
Proof. reflexivity. Qed.

Lemma delete_user_data_history user_id w :
  conversation_history (snd (delete_user_data user_id w)) =
  delete user_id (conversation_history w).
Proof.
  rewrite delete_user_data_eq.
  pose proof (delete_user_memories_history user_id
    (set_history w (delete user_id (conversation_history w)))) as H.
  destruct (delete_user_memories user_id
    (set_history w (delete user_id (conversation_history w)))) as [[n|ex] w'];
    simpl in *; done.
Qed.

Lemma delete_user_data_size user_id w :
  short_term_memory_size (snd (delete_user_data user_id w)) = short_term_memory_size w.
Proof.
  rewrite delete_user_data_eq.
  pose proof (delete_user_memories_size user_id
    (set_history w (delete user_id (conversation_history w)))) as H.
  destruct (delete_user_memories user_id
    (set_history w (delete user_id (conversation_history w)))) as [[n|ex] w'];
    simpl in *; done.
Qed.

(** C1 (as amended): when the language-model client raises [e], [chat] does
    not raise: it behaves exactly as if the client had answered the apology
    text, so the user's message and the apology are appended to the
    short-term history and written to the long-term store like any reply;
    with no write failure both turns are recorded. *)
Theorem generation_failure_persisted_as_reply (client : string -> llm_reply)
    (e user_id message : string) (w : world) (Hfail : forall c, client c = Failed e) :
  chat client user_id message w =
    chat (fun _ => Completed (apology e)) user_id message w /\
  (add_faults w = [] ->
   let w' := snd (chat client user_id message w) in
   fst (chat client user_id message w) = Ok (apology e) /\
   conversation_history w' !! user_id =
     Some (default [] (conversation_history w !! user_id)
             ++ [mkMessage "user" message (clock w);
                 mkMessage "assistant" (apology e) (S (S (clock w)))]) /\
   collection w' =
     collection w ++
       [mkRecord (user_id, "user", S (clock w)) message
                 (mkMeta user_id "user" (S (clock w)));
        mkRecord (user_id, "assistant", S (S (S (clock w)))) (apology e)
                 (mkMeta user_id "assistant" (S (S (S (clock w)))))]).
Proof.
  split.
  - unfold chat, _generate_response, bind, gets. simpl. by rewrite Hfail.
  - intros Hnf.
    unfold chat, _generate_response, _save_to_memory, add_memory, bind, gets, now,
      next_write_fails, modify, ret, raise.
    rewrite Hfail. simpl. rewrite Hnf. simpl. rewrite Hnf. simpl.
    split; [done|]. split.
    + rewrite !lookup_insert_eq. simpl. by rewrite <- app_assoc.
    + by rewrite <- app_assoc.
Qed.

(** C3 (as amended): after a successful generation, a failing long-term
    write makes [chat] raise, so the reply is not returned.  When the write
    of the user's turn raises, the user's turn is in the short-term history
    only and the assistant's turn is recorded nowhere; when the write of the
    assistant's turn raises, the user's record stays in the long-term store
    (no roll-back) and both turns are in the short-term history. *)
Theorem chat_long_term_write_failure (client : string -> llm_reply)
    (text user_id message : string) (w : world) (Hok : forall c, client c = Completed text) :
  (forall rest, add_faults w = true :: rest ->
   let w' := snd (chat client user_id message w) in
   fst (chat client user_id message w) = Raise WriteError /\
   conversation_history w' !! user_id =
     Some (default [] (conversation_history w !! user_id)
             ++ [mkMessage "user" message (clock w)]) /\
   collection w' = collection w) /\
  (forall rest, add_faults w = false :: true :: rest ->
   let w' := snd (chat client user_id message w) in
   fst (chat client user_id message w) = Raise WriteError /\
   conversation_history w' !! user_id =
     Some (default [] (conversation_history w !! user_id)
             ++ [mkMessage "user" message (clock w);
                 mkMessage "assistant" text (S (S (clock w)))]) /\
   collection w' =
     collection w ++
       [mkRecord (user_id, "user", S (clock w)) message
                 (mkMeta user_id "user" (S (clock w)))]).
Proof.
  split; intros rest Hf;
    unfold chat, _generate_response, _save_to_memory, add_memory, bind, gets, now,
      next_write_fails, modify, ret, raise;
    rewrite Hok; simpl; rewrite Hf; simpl.
  - split; [done|]. split; [|done]. by rewrite lookup_insert_eq.
  - split; [done|]. split; [|done].
    rewrite !lookup_insert_eq. simpl. by rewrite <- app_assoc.
Qed.

(** C9 (as amended): [delete_user_data] removes the user's short-term
    history and every long-term record of the user; its result reports the
    user id, the number of long-term records removed and the status, and no
    short-term count. *)
Theorem delete_user_data_clears_both (w : world) (user_id : string)
    (Hwf : wf_collection (collection w)) :
  let w' := snd (delete_user_data user_id w) in
  fst (delete_user_data user_id w) =
    Ok [("user_id", VStr user_id);
        ("deleted_memories",
          VInt (Z.of_nat (length (collection w) - length (collection w'))));
        ("status", VStr "completed")] /\
  conversation_history w' !! user_id = None /\
  get_user_memory_count (collection w') user_id = 0%nat.
Proof.
  pose proof (delete_user_data_history user_id w) as Hh.
  rewrite delete_user_data_eq in *.
  pose proof (delete_user_memories_spec
    (set_history w (delete user_id (conversation_history w))) user_id "" 0 0 Hwf)
    as (Hr & Hc & _).
  destruct (delete_user_memories user_id
    (set_history w (delete user_id (conversation_history w)))) as [[n|ex] w'];
    simpl in *; [|discriminate].
  injection Hr as ->. split; [done|]. split; [|done].
  rewrite Hh. apply lookup_delete_eq.
Qed.

(** C10: the [short_term_messages] entry of [get_user_stats] counts every
    turn appended since the last [clear_short_term_memory] or
    [delete_user_data] of the user, whatever happens to the long-term
    writes: the history is never cut to the window.  After more turns than
    [short_term_memory_size] it exceeds that size. *)
Theorem stats_short_term_counts_all_turns (w : world) (user_id : string)
    (turns : list (string * string))
    (HW : (short_term_memory_size w < Z.of_nat (length turns))%Z) :
  let w1 := save_turns user_id turns (snd (clear_short_term_memory user_id w)) in
  let w2 := save_turns user_id turns (snd (delete_user_data user_id w)) in
  short_term_messages (save_turns user_id turns w) user_id =
    Some (VInt (Z.of_nat (length (default [] (conversation_history w !! user_id))
                          + length turns))) /\
  short_term_messages w1 user_id = Some (VInt (Z.of_nat (length turns))) /\
  short_term_messages w2 user_id = Some (VInt (Z.of_nat (length turns))) /\
  (short_term_memory_size w1 < Z.of_nat (length turns))%Z /\
  (short_term_memory_size w2 < Z.of_nat (length turns))%Z.
Proof.
  unfold short_term_messages, get_user_stats.
  destruct (save_turns_count user_id turns w) as [H0 _].
  destruct (save_turns_count user_id turns (snd (clear_short_term_memory user_id w)))
    as [H1 S1].
  destruct (save_turns_count user_id turns (snd (delete_user_data user_id w)))
    as [H2 S2].
  rewrite H0, H1, H2, S1, S2, delete_user_data_size, delete_user_data_history.
  unfold clear_short_term_memory, modify. simpl.
  rewrite !lookup_delete_eq. simpl. auto.
Qed.

(** X16: with a positive [short_term_memory_size] the window is a suffix of the
    user's history of that many turns (fewer while the history is
    shorter). *)
Lemma short_term_window_positive (w : world) (user_id : string) :
  (0 < short_term_memory_size w)%Z ->
  let h := default [] (conversation_history w !! user_id) in
  let win := _get_short_term_history w user_id in
  Z.of_nat (length win) = Z.min (Z.of_nat (length h)) (short_term_memory_size w) /\
  exists pre, h = pre ++ win.
Proof.
  intros Hpos. simpl. unfold _get_short_term_history, py_slice_from.
  destruct (conversation_history w !! user_id) as [h|]; simpl.
  - rewrite (proj2 (Z.ltb_lt _ _)) by lia. split.
    + rewrite length_drop. lia.
    + eexists. symmetry. apply take_drop.
  - split; [lia|]. by exists [].
Qed.

(** ** Further properties of the store *)

Lemma insert_by_timestamp_desc_sorted m l :
  StronglySorted (fun a b => mem_timestamp b <= mem_timestamp a)%nat l ->
  StronglySorted (fun a b => mem_timestamp b <= mem_timestamp a)%nat
    (insert_by_timestamp_desc m l).
Proof.
  induction l as [|m' l IH]; simpl; intros Hs.
  - repeat constructor.
  - inversion Hs as [|? ? Hs' Hf]; subst.
    destruct (Nat.leb _ _) eqn:E.
    + apply Nat.leb_le in E. constructor; [by apply IH|].
      apply List.Forall_forall. intros x Hx.
      apply (Permutation_in _ (insert_by_timestamp_desc_perm _ _)) in Hx.
      destruct Hx as [<-|Hx]; [done|]. by eapply List.Forall_forall in Hf.
    + apply Nat.leb_gt in E. constructor; [done|]. constructor; [lia|].
      apply List.Forall_forall. intros x Hx. eapply List.Forall_forall in Hf; [|done].
      lia.
Qed.

Lemma sort_by_timestamp_desc_sorted l :
  StronglySorted (fun a b => mem_timestamp b <= mem_timestamp a)%nat
    (sort_by_timestamp_desc l).
Proof.
  unfold sort_by_timestamp_desc.
  enough (forall acc,
    StronglySorted (fun a b => mem_timestamp b <= mem_timestamp a)%nat acc ->
    StronglySorted (fun a b => mem_timestamp b <= mem_timestamp a)%nat
      (fold_left (fun acc m => insert_by_timestamp_desc m acc) l acc))
    as H by (apply H; constructor).
  induction l as [|m l IH]; intros acc Hacc; simpl; [done|].
  apply IH. by apply insert_by_timestamp_desc_sorted.
Qed.

Lemma get_recent_memories_In_full col user_id n mem :
  In mem (get_recent_memories col user_id n) ->
  exists r, In r (collection_get col user_id) /\
    mem = mkMemory (rec_document r) (rec_metadata r) 1.
Proof.
  unfold get_recent_memories. destruct (collection_get col user_id) as [|r0 rs] eqn:E;
    [done|]. rewrite <- E. intros H. apply In_firstn in H.
  apply (Permutation_in _ (sort_by_timestamp_desc_perm _)) in H.
  apply in_map_iff in H as (r & <- & Hr). eauto.
Qed.

(** X1: [get_recent_memories] returns at most [n_results] memories of the
    user, newest first, each with relevance 1; nothing when the user has no
    record; and every record of the user when [n_results] is at least their
    number. *)
Theorem get_recent_memories_contract (col : list record) (user_id : string)
    (n_results : nat) :
  let res := get_recent_memories col user_id n_results in
  (length res <= n_results)%nat /\
  StronglySorted (fun a b => mem_timestamp b <= mem_timestamp a)%nat res /\
  Forall (fun mem => mem_user_id mem = user_id /\ mem_relevance mem = 1%Q) res /\
  (collection_get col user_id = [] -> res = []) /\
  ((get_user_memory_count col user_id <= n_results)%nat ->
   Permutation res
     (map (fun r => mkMemory (rec_document r) (rec_metadata r) 1) (collection_get col user_id))).
Proof.
  simpl. unfold get_recent_memories, get_user_memory_count.
  destruct (collection_get col user_id) as [|r0 rs] eqn:E.
  { repeat split; try constructor; simpl; lia. }
  rewrite <- E. split; [rewrite length_firstn; lia|].
  split; [apply StronglySorted_firstn, sort_by_timestamp_desc_sorted|].
  split.
  { apply List.Forall_forall. intros mem Hin. apply In_firstn in Hin.
    apply (Permutation_in _ (sort_by_timestamp_desc_perm _)) in Hin.
    apply in_map_iff in Hin as (r & <- & Hr). apply collection_get_In in Hr as [_ Hu].
    done. }
  split; [rewrite E; discriminate|].
  intros Hn. rewrite firstn_all2.
  - apply sort_by_timestamp_desc_perm.
  - rewrite (Permutation_length (sort_by_timestamp_desc_perm _)), length_map. lia.
Qed.

(** X2: [get_recent_conversation] lists at most [n] entries, newest first,
    each the role, content and timestamp of one record of that user. *)
Theorem get_recent_conversation_contract (w : world) (user_id : string) (n : nat) :
  let res := get_recent_conversation w user_id n in
  (length res <= n)%nat /\
  StronglySorted (fun a b => b.2 <= a.2)%nat res /\
  (forall e, In e res -> exists r, In r (collection_get (collection w) user_id) /\
     e = (meta_role (rec_metadata r), rec_document r, meta_timestamp (rec_metadata r))).
Proof.
  simpl. unfold get_recent_conversation. split.
  { rewrite length_map. unfold get_recent_memories.
    destruct (collection_get _ _); simpl; [lia|]. rewrite length_firstn. lia. }
  split.
  { eapply StronglySorted_map; [|].
    - intros a b H. exact H.
    - unfold get_recent_memories. destruct (collection_get _ _); [constructor|].
      apply StronglySorted_firstn, sort_by_timestamp_desc_sorted. }
  intros e He. apply in_map_iff in He as (mem & <- & Hin).
  apply get_recent_memories_In_full in Hin as (r & Hr & ->). eauto.
Qed.

Lemma sum_counts_increment (acc : gmap string nat) (k : string) :
  sum_counts (<[k := (default 0 (acc !! k) + 1)%nat]> acc) = S (sum_counts acc).
Proof.
  unfold sum_counts. rewrite <- insert_delete_eq.
  rewrite map_fold_insert_L; [|intros; lia|apply lookup_delete_eq].
  destruct (acc !! k) as [x|] eqn:E; simpl.
  - rewrite (map_fold_delete_L _ _ k x acc); [lia|intros; lia|done].
  - rewrite delete_id by done. lia.
Qed.

Lemma count_users_spec (metas : list meta) (acc : gmap string nat) :
  (forall k, acc !! k <> Some 0%nat) ->
  (forall u, fold_left (fun user_counts m =>
      <[meta_user_id m := (default 0 (user_counts !! meta_user_id m) + 1)%nat]> user_counts)
      metas acc !! u =
    match (default 0 (acc !! u) +
           length (List.filter (fun m => bool_decide (meta_user_id m = u)) metas))%nat with
    | O => None
    | c => Some c
    end) /\
  sum_counts (fold_left (fun user_counts m =>
      <[meta_user_id m := (default 0 (user_counts !! meta_user_id m) + 1)%nat]> user_counts)
      metas acc) = (sum_counts acc + length metas)%nat /\
  dom (fold_left (fun user_counts m =>
      <[meta_user_id m := (default 0 (user_counts !! meta_user_id m) + 1)%nat]> user_counts)
      metas acc) = dom acc ∪ list_to_set (map meta_user_id metas).
Proof.
  revert acc. induction metas as [|m metas IH]; intros acc Hacc; simpl.
  - split; [|split; [lia|set_solver]].
    intros u. rewrite Nat.add_0_r. destruct (acc !! u) as [[|c]|] eqn:E; simpl; try done.
    by apply Hacc in E.
  - destruct (IH (<[meta_user_id m := (default 0 (acc !! meta_user_id m) + 1)%nat]> acc))
      as (Hl & Hs & Hd).
    { intros k. destruct (decide (meta_user_id m = k)) as [<-|Hne].
      - rewrite lookup_insert_eq. intros [=]. lia.
      - rewrite lookup_insert_ne by done. apply Hacc. }
    split; [|split].
    + intros u. rewrite Hl. destruct (decide (meta_user_id m = u)) as [<-|Hne].
      * rewrite lookup_insert_eq, bool_decide_eq_true_2 by done.
        assert (Heq : forall a b : nat, a = b ->
          (match a with O => None | S n => Some (S n) end : option nat) =
          match b with O => None | S n => Some (S n) end) by (intros; by subst).
        apply Heq. simpl. lia.
      * rewrite lookup_insert_ne, bool_decide_eq_false_2 by done. done.
    + rewrite Hs, sum_counts_increment. lia.
    + rewrite Hd, dom_insert_L. set_solver.
Qed.

Lemma count_metas (col : list record) (user_id : string) :
  length (List.filter (fun m => bool_decide (meta_user_id m = user_id))
            (map rec_metadata col)) =
  get_user_memory_count col user_id.
Proof.
  unfold get_user_memory_count, collection_get, where_user.
  induction col as [|r col IH]; simpl; [done|].
  destruct (bool_decide _); simpl; lia.
Qed.

(** X3: [get_statistics] counts, for each user, exactly that user's
    records (users without records are absent from [user_counts]); the
    per-user counts add up to [total_memories]; [unique_users] is the
    number of distinct user ids in the collection. *)
Theorem get_statistics_consistent (col : list record) :
  let st := get_statistics col in
  (forall u, user_counts st !! u =
     match get_user_memory_count col u with O => None | c => Some c end) /\
  sum_counts (user_counts st) = total_memories st /\
  unique_users st =
    size (list_to_set (map (fun r => meta_user_id (rec_metadata r)) col) : gset string).
Proof.
  simpl. unfold count_users.
  destruct (count_users_spec (map rec_metadata col) ∅) as (Hl & Hs & Hd).
  { intros k. rewrite lookup_empty. discriminate. }
  split; [|split].
  - intros u. rewrite Hl, lookup_empty. simpl. by rewrite count_metas.
  - rewrite Hs, length_map. reflexivity.
  - rewrite <- size_dom, Hd, dom_empty_L, map_map. f_equal. set_solver.
Qed.

Lemma collection_get_app col1 col2 user_id :
  collection_get (col1 ++ col2) user_id =
  collection_get col1 user_id ++ collection_get col2 user_id.
Proof. unfold collection_get. apply List.filter_app. Qed.

(** X4: a successful [add_memory] appends exactly one record and returns
    its id [(user_id, role, timestamp)]; the record's metadata is the
    default one updated with [metadata], and the record count grows by one
    for the user the stored metadata names (the caller's [user_id] unless
    [metadata] overrides it) and for no other user.  A failing one raises
    and leaves the collection as it was. *)
Theorem add_memory_effect (w : world) (user_id message role : string)
    (metadata : option meta_update) :
  let stored := update_meta (mkMeta user_id role (clock w)) metadata in
  let w' := snd (add_memory user_id message role metadata w) in
  (hd_error (add_faults w) <> Some true ->
   fst (add_memory user_id message role metadata w) = Ok (user_id, role, clock w) /\
   collection w' = collection w ++ [mkRecord (user_id, role, clock w) message stored] /\
   get_user_memory_count (collection w') (meta_user_id stored) =
     S (get_user_memory_count (collection w) (meta_user_id stored)) /\
   (forall other, other <> meta_user_id stored ->
    get_user_memory_count (collection w') other =
    get_user_memory_count (collection w) other)) /\
  (hd_error (add_faults w) = Some true ->
   fst (add_memory user_id message role metadata w) = Raise WriteError /\
   collection w' = collection w).
Proof.
  assert (Hcnt : forall col r u, get_user_memory_count (col ++ [r]) u =
    (get_user_memory_count col u +
     if bool_decide (meta_user_id (rec_metadata r) = u) then 1 else 0)%nat).
  { intros col r u. unfold get_user_memory_count.
    rewrite collection_get_app, length_app. unfold collection_get at 2, where_user.
    simpl. by destruct (bool_decide _). }
  simpl. unfold add_memory, bind, now, next_write_fails, modify, ret, raise. simpl.
  destruct (add_faults w) as [|[|] rest]; simpl; split; intros H; try done;
    (split; [done|]; split; [done|]); rewrite Hcnt; simpl;
    (split; [rewrite bool_decide_eq_true_2 by done; lia|]);
    intros other Hne; rewrite Hcnt; simpl;
    rewrite bool_decide_eq_false_2 by congruence; lia.
Qed.

Lemma to_memories_all min_relevance rs :
  (forall x, In x rs -> (min_relevance <= 1 - x.2)%Q) ->
  length (to_memories min_relevance rs) = length rs.
Proof.
  induction rs as [|[[doc m] dist] rs IH]; simpl; intros Hall; [done|].
  assert (E : Qle_bool min_relevance (1 - dist) = true).
  { apply Qle_bool_iff. apply (Hall (doc, m, dist)). by left. }
  rewrite E. simpl. f_equal. apply IH. intros x Hx. apply Hall. by right.
Qed.

(** X5: when [n_results] is positive and at least the user's record count
    and every record of the user clears [min_relevance], the call of
    [search_memories] returns one memory per record of the user. *)
Theorem search_memories_returns_all (col : list record) (query user_id : string)
    (n_results : nat) (min_relevance : Q) (Hpos : (0 < n_results)%nat)
    (Hn : (get_user_memory_count col user_id <= n_results)%nat)
    (Hall : forall r, In r (collection_get col user_id) ->
              (min_relevance <= 1 - distance query (rec_document r))%Q) :
  exists mems,
    search_memories_call col query user_id n_results min_relevance = Ok mems /\
    length mems = get_user_memory_count col user_id.
Proof.
  destruct n_results as [|n]; [lia|].
  eexists. split; [reflexivity|].
  rewrite search_memories_to_memories, to_memories_all.
  - unfold collection_query. rewrite length_map, length_firstn.
    rewrite (Permutation_length (sort_by_distance_perm _ _)).
    unfold get_user_memory_count in *. lia.
  - intros [[doc m] d] Hx. apply collection_query_In in Hx as (r & Hr & -> & -> & ->).
    by apply Hall.
Qed.

Lemma delete_user_memories_collection (w : world) (user_id : string) :
  wf_collection (collection w) ->
  collection (snd (delete_user_memories user_id w)) =
  List.filter (fun r => negb (where_user user_id r)) (collection w).
Proof.
  intros Hwf. unfold delete_user_memories, bind, gets, modify, ret. simpl.
  destruct (map rec_id (collection_get (collection w) user_id)) as [|i is] eqn:Eids.
  - apply map_eq_nil in Eids. simpl. symmetry. apply forallb_filter_id.
    apply forallb_forall. intros r Hr. apply negb_true_iff.
    destruct (where_user user_id r) eqn:E; [|done].
    assert (Hin : In r (collection_get (collection w) user_id))
      by (apply filter_In; done).
    by rewrite Eids in Hin.
  - simpl. apply filter_ext_in. intros r Hr. f_equal.
    apply bool_decide_ext. rewrite list_elem_of_In, <- Eids. split.
    + intros Hi. apply in_map_iff in Hi as (r' & Hid & Hr').
      pose proof Hr' as Hr''. apply collection_get_In in Hr'' as [Hin Hu].
      rewrite <- (Hwf r Hr), <- Hid, (Hwf r' Hin). done.
    + intros Hu. apply in_map_iff. exists r. split; [done|].
      by apply collection_get_In.
Qed.

(** X6: on a well-formed collection, [delete_user_memories] leaves the
    records of every other user exactly as they were. *)
Theorem delete_user_memories_keeps_others (w : world) (user_id other : string)
    (Hwf : wf_collection (collection w)) (Hne : other <> user_id) :
  collection_get (collection (snd (delete_user_memories user_id w))) other =
  collection_get (collection w) other.
Proof.
  rewrite delete_user_memories_collection by done.
  unfold collection_get, where_user. clear Hwf.
  induction (collection w) as [|r col IH]; [done|].
  simpl. destruct (decide (meta_user_id (rec_metadata r) = user_id)) as [E|E].
  - rewrite (bool_decide_eq_true_2 _ E). simpl.
    rewrite (bool_decide_eq_false_2 (meta_user_id (rec_metadata r) = other))
      by congruence. exact IH.
  - rewrite (bool_decide_eq_false_2 _ E). simpl.
    destruct (bool_decide (meta_user_id (rec_metadata r) = other)); simpl;
      by rewrite IH.
Qed.

Lemma bind_preserves {A B} (P : world -> world -> Prop) (m : M A) (f : A -> M B) :
  (forall w1 w2 w3, P w1 w2 -> P w2 w3 -> P w1 w3) ->
  preserves P m -> (forall a, preserves P (f a)) -> preserves P (bind m f).
Proof.
  intros Ht Hm Hf w. unfold bind. specialize (Hm w).
  destruct (m w) as [[a|e] w'] eqn:E; simpl in *; [|exact Hm].
  eapply Ht; [exact Hm|]. apply Hf.
Qed.

Lemma ret_preserves {A} (P : world -> world -> Prop) (a : A) :
  (forall w, P w w) -> preserves P (ret a).
Proof. intros Hr w. apply Hr. Qed.

Lemma gets_preserves {A} (P : world -> world -> Prop) (f : world -> A) :
  (forall w, P w w) -> preserves P (gets f).
Proof. intros Hr w. apply Hr. Qed.

Lemma generate_response_preserves (P : world -> world -> Prop) client context :
  (forall w, P w w) -> preserves P (_generate_response client context).
Proof. intros Hr. unfold _generate_response. by destruct (client context); apply ret_preserves. Qed.

Lemma save_to_memory_collection user_id message role w :
  collection (snd (_save_to_memory user_id message role w)) = collection w \/
  collection (snd (_save_to_memory user_id message role w)) =
    collection w ++ [mkRecord (user_id, role, S (clock w)) message
                       (mkMeta user_id role (S (clock w)))].
Proof.
  unfold _save_to_memory, add_memory, bind, now, next_write_fails, modify, ret, raise.
  simpl. destruct (add_faults w) as [|[|] rest]; simpl; auto.
Qed.

(** [chat] run against the store, as a chain of [bind]s, keeps any
    reflexive and transitive relation that [_save_to_memory] keeps. *)
Lemma chat_preserves (P : world -> world -> Prop) client user_id message :
  (forall w, P w w) ->
  (forall w1 w2 w3, P w1 w2 -> P w2 w3 -> P w1 w3) ->
  (forall msg role, preserves P (_save_to_memory user_id msg role)) ->
  preserves P (chat client user_id message).
Proof.
  intros Hr Ht Hs. unfold chat.
  apply bind_preserves; [exact Ht|by apply gets_preserves|intros lt].
  apply bind_preserves; [exact Ht|by apply gets_preserves|intros st]. cbv zeta.
  apply bind_preserves; [exact Ht|by apply generate_response_preserves|intros resp].
  apply bind_preserves; [exact Ht|apply Hs|intros _].
  apply bind_preserves; [exact Ht|apply Hs|intros _].
  by apply ret_preserves.
Qed.

Lemma same_for_user_refl other w : same_for_user other w w.
Proof. done. Qed.

Lemma same_for_user_trans other w1 w2 w3 :
  same_for_user other w1 w2 -> same_for_user other w2 w3 -> same_for_user other w1 w3.
Proof. intros [H1 H2] [H3 H4]. split; congruence. Qed.

Lemma save_to_memory_same_for_other user_id other message role :
  other <> user_id -> preserves (same_for_user other) (_save_to_memory user_id message role).
Proof.
  intros Hne w. split.
  - rewrite save_to_memory_history. by apply lookup_insert_ne.
  - destruct (save_to_memory_collection user_id message role w) as [-> | ->]; [done|].
    rewrite collection_get_app. unfold collection_get at 2, where_user. simpl.
    rewrite bool_decide_eq_false_2 by congruence. apply app_nil_r.
Qed.

(** X7: a [chat] turn of one user, whatever the client answers and whatever
    the long-term writes do, leaves the short-term history and the
    long-term records of every other user unchanged. *)
Theorem chat_isolates_other_users (client : string -> llm_reply)
    (user_id message other : string) (w : world) (Hne : other <> user_id) :
  let w' := snd (chat client user_id message w) in
  conversation_history w' !! other = conversation_history w !! other /\
  collection_get (collection w') other = collection_get (collection w) other.
Proof.
  apply (chat_preserves (same_for_user other) client user_id message).
  - apply same_for_user_refl.
  - apply same_for_user_trans.
  - intros msg role. by apply save_to_memory_same_for_other.
Qed.

Lemma wf_collection_app col1 col2 :
  wf_collection col1 -> wf_collection col2 -> wf_collection (col1 ++ col2).
Proof. intros H1 H2 r Hr. apply in_app_or in Hr as [Hr|Hr]; auto. Qed.

Lemma wf_collection_check (col : list record) :
  forallb (fun r => bool_decide ((rec_id r).1.1 = meta_user_id (rec_metadata r))) col
    = true ->
  wf_collection col.
Proof.
  intros H r Hr. eapply forallb_forall in H; [|exact Hr].
  by apply bool_decide_eq_true in H.
Qed.

Lemma save_to_memory_wf user_id message role w :
  wf_collection (collection w) ->
  wf_collection (collection (snd (_save_to_memory user_id message role w))).
Proof.
  intros Hwf. destruct (save_to_memory_collection user_id message role w) as [-> | ->];
    [done|]. apply wf_collection_app; [done|].
  intros r [<-|[]]. done.
Qed.

(** X8: [chat] and [delete_user_data] keep a well-formed store well
    formed, so every store they reach from one is: each record's id starts with the user
    id of its metadata, which is what lets [delete_user_memories] delete by
    id the records it found by metadata. *)
Theorem chat_and_delete_keep_wf (client : string -> llm_reply)
    (user_id message : string) (w : world) (Hwf : wf_collection (collection w)) :
  wf_collection (collection (snd (chat client user_id message w))) /\
  wf_collection (collection (snd (delete_user_data user_id w))).
Proof.
  split.
  - revert Hwf.
    apply (chat_preserves (fun w w' => wf_collection (collection w) ->
                                      wf_collection (collection w'))); auto.
    intros msg role w0. apply save_to_memory_wf.
  - rewrite delete_user_data_eq.
    pose proof (delete_user_memories_collection
      (set_history w (delete user_id (conversation_history w))) user_id Hwf) as Hc.
    destruct (delete_user_memories user_id
      (set_history w (delete user_id (conversation_history w)))) as [[n|ex] w'];
      simpl in *; rewrite Hc; intros r Hr; apply filter_In in Hr as [Hr _]; auto.
Qed.

Lemma get_user_memory_count_app col1 col2 user_id :
  get_user_memory_count (col1 ++ col2) user_id =
  (get_user_memory_count col1 user_id + get_user_memory_count col2 user_id)%nat.
Proof. unfold get_user_memory_count. by rewrite collection_get_app, length_app. Qed.

(** X9: a [chat] turn whose generation succeeds with [text] and whose two
    long-term writes succeed returns [text]; the user's short-term history
    grows by the user's message and the reply, in that order, and the
    user's long-term count grows by two. *)
Theorem chat_success (client : string -> llm_reply) (text user_id message : string)
    (w : world) (Hok : forall c, client c = Completed text) (Hnf : add_faults w = []) :
  let w' := snd (chat client user_id message w) in
  fst (chat client user_id message w) = Ok text /\
  conversation_history w' !! user_id =
    Some (default [] (conversation_history w !! user_id)
            ++ [mkMessage "user" message (clock w);
                mkMessage "assistant" text (S (S (clock w)))]) /\
  get_user_memory_count (collection w') user_id =
    (get_user_memory_count (collection w) user_id + 2)%nat /\
  collection w' =
    collection w ++
      [mkRecord (user_id, "user", S (clock w)) message
                (mkMeta user_id "user" (S (clock w)));
       mkRecord (user_id, "assistant", S (S (S (clock w)))) text
                (mkMeta user_id "assistant" (S (S (S (clock w)))))].
Proof.
  unfold chat, _generate_response, _save_to_memory, add_memory, bind, gets, now,
    next_write_fails, modify, ret, raise.
  rewrite Hok. simpl. rewrite Hnf. simpl. rewrite Hnf. simpl.
  split; [done|]. split.
  - rewrite !lookup_insert_eq. simpl. by rewrite <- app_assoc.
  - rewrite <- app_assoc, get_user_memory_count_app. split; [|done].
    unfold get_user_memory_count, collection_get, where_user. simpl.
    rewrite !bool_decide_eq_true_2 by done. done.
Qed.

Lemma digits_of_first fuel n acc :
  fuel <> 0%nat ->
  exists c rest, digits_of fuel n acc = String c rest /\
    (48 <= Ascii.nat_of_ascii c <= 57)%nat.
Proof.
  revert n acc. induction fuel as [|f IH]; intros n acc Hf; [done|]. simpl.
  assert (Hd : (48 <= Ascii.nat_of_ascii (Ascii.ascii_of_nat (48 + n mod 10)) <= 57)%nat).
  { pose proof (Nat.mod_upper_bound n 10 ltac:(lia)).
    rewrite Ascii.nat_ascii_embedding by lia. lia. }
  destruct (Nat.ltb n 10).
  - by eexists _, _.
  - destruct f as [|f].
    + by eexists _, _.
    + by apply IH.
Qed.

Lemma memory_lines_first i memories p :
  In p (memory_lines i memories) ->
  exists c rest, p = String c rest /\ (48 <= Ascii.nat_of_ascii c <= 57)%nat.
Proof.
  revert i. induction memories as [|m ms IH]; intros i Hp; simpl in Hp; [done|].
  destruct Hp as [<-|Hp]; [|by apply (IH (S i))].
  destruct (digits_of_first (S i) i "" ltac:(done)) as (c & rest & E & Hd).
  unfold str_of_nat. rewrite E. by eexists _, _.
Qed.

Lemma sentinel_not_memory_section memories :
  ~ In no_context_sentinel
      (match memories with
       | [] => []
       | _ => "## 関連する過去の記憶:" :: memory_lines 1 memories ++ [""]
       end)%string.
Proof.
  unfold no_context_sentinel.
  destruct memories as [|m ms]; [intros []|]. intros [H|H]; [discriminate|].
  apply in_app_or in H as [H|[H|[]]]; [|discriminate].
  apply memory_lines_first in H as (c & rest & E & Hd).
  injection E as <- _.
  vm_compute in Hd. lia.
Qed.

Lemma sentinel_not_history_section (short_term_history : list ConversationMessage) :
  ~ In no_context_sentinel
      (match short_term_history with
       | [] => []
       | _ => "## 現在の会話の流れ:"
                :: map (fun msg => role_name (cm_role msg) ++ ": " ++ cm_content msg)%string
                       short_term_history
                ++ [""]
       end)%string.
Proof.
  unfold no_context_sentinel.
  destruct short_term_history as [|x h]; [intros []|]. intros [H|H]; [discriminate|].
  apply in_app_or in H as [H|[H|[]]]; [|discriminate].
  apply in_map_iff in H as (msg & E & _). apply (f_equal first_char) in E.
  unfold role_name in E. destruct (bool_decide _); vm_compute in E; discriminate.
Qed.

(** X10: the "no prior context" sentinel is among the composed parts
    exactly when there is neither a long-term memory nor a short-term
    turn: no memory line, history line or message can be taken for it. *)
Theorem context_sentinel_iff_no_context (memories : list Memory)
    (short_term_history : list ConversationMessage) (current_message : string) :
  In no_context_sentinel (context_parts memories short_term_history current_message) <->
  memories = [] /\ short_term_history = [].
Proof.
  split.
  - intros Hin. unfold context_parts in Hin.
    apply in_app_or in Hin as [Hin|Hin];
      [by apply sentinel_not_memory_section in Hin|].
    apply in_app_or in Hin as [Hin|Hin];
      [by apply sentinel_not_history_section in Hin|].
    apply in_app_or in Hin as [Hin|Hin].
    + destruct memories, short_term_history; done.
    + unfold no_context_sentinel, separator in Hin.
      destruct Hin as [Hin|[Hin|[]]]; [discriminate|].
      apply (f_equal first_char) in Hin. vm_compute in Hin. discriminate.
  - intros [-> ->]. unfold context_parts. simpl. by left.
Qed.

(** X11: [extract_conversation_summary] is empty while the history has at
    most [max_messages] turns; beyond that it reports the number of turns
    before the last [max_messages].  With [max_messages = 0], [lst[:-0]] is
    empty and it reports 0 turns for any non-empty history; with a negative
    [max_messages] it reports the first [-max_messages] turns. *)
Theorem extract_conversation_summary_spec
    (short_term_history : list ConversationMessage) (max_messages : Z) :
  let len := length short_term_history in
  ((Z.of_nat len <= max_messages)%Z ->
   extract_conversation_summary short_term_history max_messages = "") /\
  ((0 < max_messages < Z.of_nat len)%Z ->
   extract_conversation_summary short_term_history max_messages =
     summary_line (len - Z.to_nat max_messages)) /\
  (max_messages = 0%Z -> short_term_history <> [] ->
   extract_conversation_summary short_term_history max_messages = summary_line 0) /\
  ((max_messages < 0)%Z ->
   extract_conversation_summary short_term_history max_messages =
     summary_line (Nat.min (Z.to_nat (- max_messages)) len)).
Proof.
  simpl. unfold extract_conversation_summary, py_slice_to.
  split; [|split; [|split]].
  - intros H. by rewrite (proj2 (Z.leb_le _ _) H).
  - intros H. rewrite (proj2 (Z.leb_gt _ _)) by lia.
    rewrite (proj2 (Z.ltb_lt _ _)) by lia. simpl. f_equal.
    rewrite length_take. lia.
  - intros -> Hne.
    assert (Hl : (0 < Z.of_nat (length short_term_history))%Z)
      by (destruct short_term_history; [done|simpl; lia]).
    rewrite (proj2 (Z.leb_gt _ _)) by lia.
    rewrite (proj2 (Z.ltb_ge _ _)) by lia. simpl. f_equal.
    rewrite length_take. lia.
  - intros H. rewrite (proj2 (Z.leb_gt _ _)) by lia.
    rewrite (proj2 (Z.ltb_ge _ _)) by lia. simpl. f_equal.
    rewrite length_take. lia.
Qed.

(** X12: for a relevance of at most 1 at most three stars are printed; up
    to 0.33 (including every negative relevance, where [int] truncates
    toward zero) the indicator is empty; from 1 on it has at least three.
    The bounds keep a margin from the steps of [int(relevance * 3)], so
    they hold of the code's double arithmetic as well: rounding [r * 3] to
    a double is monotone, 3 is a double, and every real up to 0.99 rounds
    below 1. *)
Theorem relevance_level_bounds (r : Q) :
  ((r <= 1)%Q -> (relevance_level r <= 3)%nat) /\
  ((r <= 33 # 100)%Q -> relevance_indicator r = "") /\
  ((1 <= r)%Q -> (3 <= relevance_level r)%nat).
Proof.
  unfold relevance_level, relevance_indicator, py_str_mul, py_int.
  destruct (Qle_bool 0 (r * 3)) eqn:E.
  - apply Qle_bool_iff in E. split; [|split].
    + intros H. assert (Hf : (Qfloor (r * 3) <= Qfloor 3)%Z)
        by (apply Qfloor_resp_le; lra).
      change (Qfloor 3) with 3%Z in Hf. lia.
    + intros H. assert (Hf : (Qfloor (r * 3) <= 0)%Z).
      { pose proof (Qfloor_le (r * 3)) as Hl.
        apply Z.nlt_ge. intros Hc. apply Zlt_le_succ in Hc.
        rewrite Zle_Qle in Hc. change (inject_Z (Z.succ 0)) with 1%Q in Hc. lra. }
      by replace (Z.to_nat (Qfloor (r * 3))) with 0%nat by lia.
    + intros H. assert (Hf : (Qfloor 3 <= Qfloor (r * 3))%Z)
        by (apply Qfloor_resp_le; lra).
      change (Qfloor 3) with 3%Z in Hf. lia.
  - assert (Hneg : (r * 3 < 0)%Q).
    { apply Qnot_le_lt. intros H. apply Qle_bool_iff in H. congruence. }
    assert (Hf : (Qfloor 0 <= Qfloor (- (r * 3)))%Z) by (apply Qfloor_resp_le; lra).
    change (Qfloor 0) with 0%Z in Hf.
    replace (Z.to_nat (- Qfloor (- (r * 3)))) with 0%nat by lia.
    split; [|split]; intros H; try done; [lia|exfalso; lra].
Qed.

(** X13: [clear_short_term_memory] forgets the user's short-term history
    and nothing else: the next [_get_short_term_history] of the user is
    empty, the [get_user_stats] entries report no short-term message and the
    same long-term count, and every other user's history is unchanged. *)
Theorem clear_short_term_memory_effect (user_id other : string) (w : world) :
  let w' := snd (clear_short_term_memory user_id w) in
  _get_short_term_history w' user_id = [] /\
  get_user_stats w' user_id =
    [("user_id", VStr user_id);
     ("long_term_memories", VInt (Z.of_nat (get_user_memory_count (collection w) user_id)));
     ("short_term_messages", VInt 0)] /\
  collection w' = collection w /\
  (other <> user_id ->
   conversation_history w' !! other = conversation_history w !! other).
Proof.
  simpl. unfold _get_short_term_history, get_user_stats. simpl.
  rewrite lookup_delete_eq. split; [done|]. split; [done|]. split; [done|].
  intros Hne. by apply lookup_delete_ne.
Qed.

Lemma add_memory_ok_state (w : world) (user_id message role : string) :
  hd_error (add_faults w) <> Some true ->
  collection (snd (add_memory user_id message role None w)) =
    collection w ++ [mkRecord (user_id, role, clock w) message
                       (mkMeta user_id role (clock w))] /\
  clock (snd (add_memory user_id message role None w)) = S (clock w).
Proof.
  unfold add_memory, bind, now, next_write_fails, modify, ret, raise. simpl.
  destruct (add_faults w) as [|[|] rest]; simpl; intros H; done.
Qed.

Lemma add_memory_clock_state (w : world) (user_id message role : string) :
  clock (snd (add_memory user_id message role None w)) = S (clock w) /\
  (collection (snd (add_memory user_id message role None w)) = collection w \/
   collection (snd (add_memory user_id message role None w)) =
     collection w ++ [mkRecord (user_id, role, clock w) message
                        (mkMeta user_id role (clock w))]).
Proof.
  unfold add_memory, bind, now, next_write_fails, modify, ret, raise. simpl.
  destruct (add_faults w) as [|[|] rest]; simpl; auto.
Qed.

Lemma get_recent_memories_eq col user_id n_results :
  get_recent_memories col user_id n_results =
  firstn n_results (sort_by_timestamp_desc
    (map (fun r => mkMemory (rec_document r) (rec_metadata r) 1)
       (collection_get col user_id))).
Proof.
  unfold get_recent_memories. destruct (collection_get col user_id); [|done].
  cbn. by rewrite firstn_nil.
Qed.

Lemma insert_by_timestamp_desc_newest m l :
  (forall m', In m' l -> (mem_timestamp m' < mem_timestamp m)%nat) ->
  insert_by_timestamp_desc m l = m :: l.
Proof.
  destruct l as [|m' l]; intros H; [done|]. simpl.
  rewrite (proj2 (Nat.leb_gt _ _)); [done|]. apply H. by left.
Qed.

(** X14: on a store whose timestamps are all older than the clock, a
    successful [add_memory] without metadata (as [_save_to_memory] calls
    it) makes the new message the first entry of [get_recent_memories] for
    its user (for any positive [n_results]), and the store keeps that
    property. *)
Theorem add_memory_then_most_recent (w : world) (user_id message role : string)
    (n_results : nat) (Hfresh : timestamps_before_clock w)
    (Hok : hd_error (add_faults w) <> Some true) (Hn : (0 < n_results)%nat) :
  let w' := snd (add_memory user_id message role None w) in
  hd_error (get_recent_memories (collection w') user_id n_results) =
    Some (mkMemory message (mkMeta user_id role (clock w)) 1) /\
  timestamps_before_clock w'.
Proof.
  simpl. destruct (add_memory_ok_state w user_id message role Hok) as [Hc Hk].
  split.
  - rewrite Hc, get_recent_memories_eq, collection_get_app.
    unfold collection_get at 2, where_user. simpl.
    rewrite bool_decide_eq_true_2 by done.
    rewrite map_app. unfold sort_by_timestamp_desc. rewrite fold_left_app.
    simpl. rewrite insert_by_timestamp_desc_newest.
    + destruct n_results; [lia|]. done.
    + intros m' Hm'. fold (sort_by_timestamp_desc
        (map (fun r => mkMemory (rec_document r) (rec_metadata r) 1)
           (collection_get (collection w) user_id))) in Hm'.
      apply (Permutation_in _ (sort_by_timestamp_desc_perm _)) in Hm'.
      apply in_map_iff in Hm' as (r & <- & Hr).
      apply collection_get_In in Hr as [Hr _]. apply (Hfresh r Hr).
  - intros r Hr. rewrite Hk. rewrite Hc in Hr.
    apply in_app_or in Hr as [Hr|[<-|[]]]; simpl; [|lia].
    specialize (Hfresh r Hr). lia.
Qed.

Lemma timestamps_before_clock_save user_id message role w :
  timestamps_before_clock w ->
  timestamps_before_clock (snd (_save_to_memory user_id message role w)).
Proof.
  intros Hf.
  assert (E : snd (_save_to_memory user_id message role w) =
    snd (add_memory user_id message role None
      (let w1 := set_clock w (S (clock w)) in
       set_history w1 (<[user_id := default [] (conversation_history w1 !! user_id)
                         ++ [mkMessage role message (clock w)]]> (conversation_history w1))))).
  { unfold _save_to_memory, bind, now, modify, ret. simpl.
    by destruct (add_memory user_id message role None _) as [[a|e] w']. }
  rewrite E. set (w1 := set_history _ _).
  destruct (add_memory_clock_state w1 user_id message role) as [Hk [Hc|Hc]];
    intros r Hr; rewrite Hk; rewrite Hc in Hr.
  - specialize (Hf r Hr). simpl. lia.
  - apply in_app_or in Hr as [Hr|[<-|[]]]; simpl.
    + specialize (Hf r Hr). lia.
    + lia.
Qed.

(** X15: every [chat] turn keeps the stored timestamps older than the
    clock, whatever the client and the long-term writes do; together with
    X14 this makes the latest saved turn the most recent memory. *)
Theorem chat_keeps_timestamps_before_clock (client : string -> llm_reply)
    (user_id message : string) (w : world) (Hfresh : timestamps_before_clock w) :
  timestamps_before_clock (snd (chat client user_id message w)).
Proof.
  revert Hfresh.
  apply (chat_preserves (fun w w' => timestamps_before_clock w ->
                                    timestamps_before_clock w')); auto.
  intros msg role w0. apply timestamps_before_clock_save.
Qed.

End Engine.

(** ** Concrete runs *)

(** Witness of C2: two users, the records of a real chat of ["u1"]. *)
Lemma search_and_recent_isolate_users_witness :
  let col := collection (snd (chat distance_all_equal format_timestamp_blank
               (fun _ => Completed "hello there") "u1" "hi" (w_empty 5 []))) in
  "u1" <> "u2" /\
  (forall mem, In mem (search_memories distance_all_equal col "hi" "u1" 5 0) ->
     mem_user_id mem = "u1" /\ mem_user_id mem <> "u2").
Proof.
  intros col. assert (Hne : "u1" <> "u2") by discriminate.
  split; [exact Hne|].
  exact (proj1 (search_and_recent_isolate_users distance_all_equal col "hi" "u1" "u2"
                  5 5 0 Hne)).
Defined.

(** C4: two turns of ["u1"] at the same distance from the query come out
    oldest first, against a newest-first tie-break. *)
Lemma search_ties_keep_store_order :
  let col := collection (snd (chat distance_all_equal format_timestamp_blank
               (fun _ => Completed "hello there") "u1" "hi" (w_empty 5 []))) in
  ~ ties_newest_first (search_memories distance_all_equal col "hi" "u1" 5 0).
Proof.
  intros col H.
  assert (E : search_memories distance_all_equal col "hi" "u1" 5 0 =
    [mkMemory "hi" (mkMeta "u1" "user" 1) (1 - (1 # 4))%Q;
     mkMemory "hello there" (mkMeta "u1" "assistant" 3) (1 - (1 # 4))%Q])
    by reflexivity.
  rewrite E in H.
  specialize (H 0%nat (mkMemory "hi" (mkMeta "u1" "user" 1) (1 - (1 # 4))%Q)
    (mkMemory "hello there" (mkMeta "u1" "assistant" 3) (1 - (1 # 4))%Q)
    eq_refl eq_refl (Qeq_refl _)).
  unfold mem_timestamp in H. simpl in H. lia.
Qed.

(** Witness of C6 on the records of a real chat. *)
Lemma delete_then_count_zero_and_search_empty_witness :
  let w := snd (chat distance_all_equal format_timestamp_blank
               (fun _ => Completed "hello there") "u1" "hi" (w_empty 5 [])) in
  wf_collection (collection w) /\ (0 < 5)%nat /\
  search_memories_call distance_all_equal
    (collection (snd (delete_user_memories "u1" w))) "hi" "u1" 5 0 = Ok [].
Proof.
  intros w.
  assert (Hwf : wf_collection (collection w)).
  { intros r Hr. vm_compute in Hr.
    destruct Hr as [<-|[<-|[]]]; reflexivity. }
  assert (Hpos : (0 < 5)%nat) by lia.
  split; [exact Hwf|]. split; [exact Hpos|].
  exact (proj2 (proj2 (delete_then_count_zero_and_search_empty distance_all_equal
                         w "u1" "hi" 5 0 Hwf Hpos))).
Defined.

(** C6: after the deletion the count of ["u1"] is 0, but a search for
    ["u1"] with [n_results = 0] raises instead of returning an empty
    sequence. *)
Lemma delete_then_search_zero_raises :
  let w := snd (chat distance_all_equal format_timestamp_blank
               (fun _ => Completed "hello there") "u1" "hi" (w_empty 5 [])) in
  let col' := collection (snd (delete_user_memories "u1" w)) in
  get_user_memory_count col' "u1" = 0%nat /\
  search_memories_call distance_all_equal col' "hi" "u1" 0 0 = Raise QueryError.
Proof. vm_compute. split; reflexivity. Qed.

(** Witness of C8. *)
Lemma relevance_level_monotone_witness :
  (0 <= 1 # 2)%Q /\ (1 <= 1)%Q /\ (1 # 2 < 1)%Q /\
  (relevance_level (1 # 2) <= relevance_level 1)%nat.
Proof.
  assert (H0 : (0 <= 1 # 2)%Q) by (vm_compute; discriminate).
  assert (H1 : (1 <= 1)%Q) by (vm_compute; discriminate).
  assert (H2 : (1 # 2 < 1)%Q) by reflexivity.
  split; [exact H0|]. split; [exact H1|]. split; [exact H2|].
  exact (proj1 (relevance_level_monotone 1 (1 # 2) H0 H1 H2)).
Defined.

(** C1: the client raises, yet the user's message and the apology are in
    both stores afterwards. *)
Lemma generation_failure_turn_recorded :
  let w0 := w_empty 5 [] in
  let w1 := snd (chat distance_all_equal format_timestamp_blank
                (fun _ => Failed "timeout") "u1" "hi" w0) in
  conversation_history w1 !! "u1" <> conversation_history w0 !! "u1" /\
  get_user_memory_count (collection w1) "u1" = 2%nat /\
  get_user_memory_count (collection w0) "u1" = 0%nat.
Proof. vm_compute. split; [discriminate|split; reflexivity]. Defined.

(** Witness of C1. *)
Lemma generation_failure_persisted_as_reply_witness :
  fst (chat distance_all_equal format_timestamp_blank (fun _ => Failed "timeout")
         "u1" "hi" (w_empty 5 [])) = Ok (apology "timeout").
Proof.
  exact (proj1 (proj2 (generation_failure_persisted_as_reply distance_all_equal
    format_timestamp_blank (fun _ => Failed "timeout") "timeout" "u1" "hi"
    (w_empty 5 []) (fun _ => eq_refl)) eq_refl)).
Defined.

(** C3: the long-term write of the user's turn raises; [chat] raises and
    the generated reply is not returned. *)
Lemma chat_write_failure_loses_reply :
  fst (chat distance_all_equal format_timestamp_blank
         (fun _ => Completed "hello there") "u1" "hi" (w_empty 5 [true]))
  = Raise WriteError.
Proof. vm_compute. reflexivity. Qed.

(** Witness of C3: the assistant's write raises, the user's record stays. *)
Lemma chat_long_term_write_failure_witness :
  collection (snd (chat distance_all_equal format_timestamp_blank
    (fun _ => Completed "hello there") "u1" "hi" (w_empty 5 [false; true]))) =
  [mkRecord ("u1", "user", 1%nat) "hi" (mkMeta "u1" "user" 1)].
Proof.
  exact (proj2 (proj2 (proj2 (chat_long_term_write_failure distance_all_equal
    format_timestamp_blank (fun _ => Completed "hello there") "hello there" "u1" "hi"
    (w_empty 5 [false; true]) (fun _ => eq_refl)) [] eq_refl))).
Defined.

(** C5: with [short_term_memory_size = 0], [lst[-0:]] is the whole list:
    after one chat the window shows both turns, more than 0. *)
Lemma short_term_window_zero_shows_all :
  let w1 := snd (chat distance_all_equal format_timestamp_blank
                (fun _ => Completed "hello there") "u1" "hi" (w_empty 0 [])) in
  short_term_memory_size w1 = 0%Z /\
  length (_get_short_term_history w1 "u1") = 2%nat.
Proof. vm_compute. split; reflexivity. Qed.

(** C9: after a chat, a clear and another chat, the user has 2 short-term
    turns and 4 long-term records; [delete_user_data] reports only the 4. *)
Lemma delete_user_data_omits_short_term_count :
  let cl := fun _ : string => Completed "hello there" in
  let w1 := snd (chat distance_all_equal format_timestamp_blank cl "u1" "hi"
                (w_empty 5 [])) in
  let w2 := snd (clear_short_term_memory "u1" w1) in
  let w3 := snd (chat distance_all_equal format_timestamp_blank cl "u1" "again" w2) in
  let removed_short := length (default [] (conversation_history w3 !! "u1")) in
  removed_short = 2%nat /\
  fst (delete_user_data "u1" w3) =
    Ok [("user_id", VStr "u1"); ("deleted_memories", VInt 4);
        ("status", VStr "completed")] /\
  ~ In (VInt (Z.of_nat removed_short))
      (map snd [("user_id", VStr "u1"); ("deleted_memories", VInt 4);
                ("status", VStr "completed")]).
Proof.
  vm_compute. split; [reflexivity|]. split; [reflexivity|].
  intros [H|[H|[H|[]]]]; discriminate H.
Qed.

(** Witness of C9. *)
Lemma delete_user_data_clears_both_witness :
  let w := snd (chat distance_all_equal format_timestamp_blank
               (fun _ => Completed "hello there") "u1" "hi" (w_empty 5 [])) in
  wf_collection (collection w) /\
  conversation_history (snd (delete_user_data "u1" w)) !! "u1" = None.
Proof.
  intros w.
  assert (Hwf : wf_collection (collection w)).
  { intros r Hr. vm_compute in Hr.
    destruct Hr as [<-|[<-|[]]]; reflexivity. }
  split; [exact Hwf|].
  exact (proj1 (proj2 (delete_user_data_clears_both distance_all_equal w "u1" Hwf))).
Defined.

(** Witness of C10: window 2, three turns appended after a clear. *)
Lemma stats_short_term_counts_all_turns_witness :
  let turns := [("hi", "user"); ("hello there", "assistant"); ("bye", "user")] in
  (short_term_memory_size (w_empty 2 []) < Z.of_nat (length turns))%Z /\
  short_term_messages
    (save_turns "u1" turns (snd (clear_short_term_memory "u1" (w_empty 2 [])))) "u1"
  = Some (VInt 3).
Proof.
  intros turns.
  assert (HW : (short_term_memory_size (w_empty 2 []) < Z.of_nat (length turns))%Z)
    by reflexivity.
  split; [exact HW|].
  exact (proj1 (proj2 (stats_short_term_counts_all_turns (w_empty 2 []) "u1" turns HW))).
Defined.

(** Witness of X5: both turns of ["u1"] clear a threshold of 0. *)
Lemma search_memories_returns_all_witness :
  let col := collection (snd (chat distance_all_equal format_timestamp_blank
               (fun _ => Completed "hello there") "u1" "hi" (w_empty 5 []))) in
  (0 < 5)%nat /\ (get_user_memory_count col "u1" <= 5)%nat /\
  exists mems, search_memories_call distance_all_equal col "hi" "u1" 5 0 = Ok mems /\
    length mems = get_user_memory_count col "u1".
Proof.
  intros col.
  assert (Hpos : (0 < 5)%nat) by lia.
  assert (Hn : (get_user_memory_count col "u1" <= 5)%nat) by (vm_compute; lia).
  split; [exact Hpos|]. split; [exact Hn|].
  apply (search_memories_returns_all distance_all_equal col "hi" "u1" 5 0 Hpos Hn).
  intros r _. unfold distance_all_equal. lra.
Defined.

(** Witness of X6: deleting ["u1"] after turns of ["u1"] and ["u2"]. *)
Lemma delete_user_memories_keeps_others_witness :
  let cl := fun _ : string => Completed "hello there" in
  let w := snd (chat distance_all_equal format_timestamp_blank cl "u2" "hey"
               (snd (chat distance_all_equal format_timestamp_blank cl "u1" "hi"
                  (w_empty 5 [])))) in
  wf_collection (collection w) /\
  collection_get (collection (snd (delete_user_memories "u1" w))) "u2" =
    collection_get (collection w) "u2".
Proof.
  intros cl w.
  assert (Hwf : wf_collection (collection w)).
  { apply wf_collection_check. vm_compute. reflexivity. }
  split; [exact Hwf|].
  assert (Hne : "u2" <> "u1") by discriminate.
  exact (delete_user_memories_keeps_others w "u1" "u2" Hwf Hne).
Defined.

(** Witness of X7: a turn of ["u1"] after a turn of ["u2"]. *)
Lemma chat_isolates_other_users_witness :
  let cl := fun _ : string => Completed "hello there" in
  let w := snd (chat distance_all_equal format_timestamp_blank cl "u2" "hey"
                  (w_empty 5 [])) in
  let w' := snd (chat distance_all_equal format_timestamp_blank cl "u1" "hi" w) in
  "u2" <> "u1" /\
  conversation_history w' !! "u2" = conversation_history w !! "u2" /\
  collection_get (collection w') "u2" = collection_get (collection w) "u2".
Proof.
  intros cl w w'. assert (Hne : "u2" <> "u1") by discriminate.
  split; [exact Hne|].
  exact (chat_isolates_other_users distance_all_equal format_timestamp_blank
           cl "u1" "hi" "u2" w Hne).
Defined.

(** Witness of X8: a turn and a deletion of ["u1"] after a turn of ["u2"]. *)
Lemma chat_and_delete_keep_wf_witness :
  let cl := fun _ : string => Completed "hello there" in
  let w := snd (chat distance_all_equal format_timestamp_blank cl "u2" "hey"
                  (w_empty 5 [])) in
  wf_collection (collection w) /\
  wf_collection (collection (snd (chat distance_all_equal format_timestamp_blank
                                    cl "u1" "hi" w))) /\
  wf_collection (collection (snd (delete_user_data "u1" w))).
Proof.
  intros cl w.
  assert (Hwf : wf_collection (collection w)).
  { intros r Hr. vm_compute in Hr.
    destruct Hr as [<-|[<-|[]]]; reflexivity. }
  split; [exact Hwf|].
  exact (chat_and_delete_keep_wf distance_all_equal format_timestamp_blank
           cl "u1" "hi" w Hwf).
Defined.

(** Witness of X9: a first successful turn on an empty store. *)
Lemma chat_success_witness :
  let cl := fun _ : string => Completed "hello there" in
  add_faults (w_empty 5 []) = [] /\
  fst (chat distance_all_equal format_timestamp_blank cl "u1" "hi" (w_empty 5 [])) =
    Ok "hello there".
Proof.
  intros cl. split; [reflexivity|].
  exact (proj1 (chat_success distance_all_equal format_timestamp_blank cl
                  "hello there" "u1" "hi" (w_empty 5 []) (fun _ => eq_refl) eq_refl)).
Defined.

(** Witness of the positive window: size 3, two turns in the history. *)
Lemma short_term_window_positive_witness :
  let w := snd (chat distance_all_equal format_timestamp_blank
               (fun _ => Completed "hello there") "u1" "hi" (w_empty 3 [])) in
  (0 < short_term_memory_size w)%Z /\
  Z.of_nat (length (_get_short_term_history w "u1")) =
    Z.min (Z.of_nat (length (default [] (conversation_history w !! "u1"))))
          (short_term_memory_size w).
Proof.
  intros w.
  assert (Hpos : (0 < short_term_memory_size w)%Z) by (vm_compute; reflexivity).
  split; [exact Hpos|].
  exact (proj1 (short_term_window_positive w "u1" Hpos)).
Defined.

(** Witness of X14: a second write of ["u1"] after one chat turn. *)
Lemma add_memory_then_most_recent_witness :
  let w := snd (chat distance_all_equal format_timestamp_blank
               (fun _ => Completed "hello there") "u1" "hi" (w_empty 5 [])) in
  timestamps_before_clock w /\
  hd_error (get_recent_memories (collection (snd (add_memory "u1" "bye" "user" None w)))
              "u1" 3) =
    Some (mkMemory "bye" (mkMeta "u1" "user" (clock w)) 1).
Proof.
  intros w.
  assert (Hf : timestamps_before_clock w).
  { intros r Hr. vm_compute in Hr. destruct Hr as [<-|[<-|[]]]; vm_compute; lia. }
  split; [exact Hf|].
  exact (proj1 (add_memory_then_most_recent w "u1" "bye" "user" 3 Hf
                  ltac:(discriminate) ltac:(lia))).
Defined.

(** Witness of X15: a turn on the empty store. *)
Lemma chat_keeps_timestamps_before_clock_witness :
  timestamps_before_clock (w_empty 5 []) /\
  timestamps_before_clock (snd (chat distance_all_equal format_timestamp_blank
                                  (fun _ => Completed "hello there") "u1" "hi"
                                  (w_empty 5 []))).
Proof.
  assert (Hf : timestamps_before_clock (w_empty 5 [])) by (intros r []).
  split; [exact Hf|].
  exact (chat_keeps_timestamps_before_clock distance_all_equal format_timestamp_blank
           _ "u1" "hi" _ Hf).
Defined.
